(** * Student Record Manager: the record store of [student_manager.py]

    A shallow embedding of class [StudentRecordManager] and the properties
    of its operations.

    Modelling conventions.
    - A Python [str] is a [string]; each character stands for one code point
      below 256.
    - A Python [dict] is an association list in insertion order: assigning
      to a present key replaces the value in place, assigning to an absent
      key appends, [del] removes the binding.  A well-formed dict has no
      repeated key ([dict_wf]).
    - Field values are the ones of the persisted layout: [None], [int]
      and [str].  An [int] is unbounded, and its conversions to and from
      text are total (no limit on the number of digits).
    - A [float] is a binary64 number; the two float operations of
      [get_statistics] are correctly rounded.
    - A raised exception is the result [None] of an [option]; every raise
      modelled here happens before the first mutation of the call.
    - A call whose result holds a Python value that is none of these (the
      object decoded from a JSON text that is not of the persisted layout)
      has the outcome [Outside]: nothing is stated about it.
    - [datetime.now().strftime(...)] is an input: the text of each clock
      reading is an argument of the operation that reads the clock.
    - The backing file is the field [disk] of the manager state: [None]
      when the file does not exist, its text otherwise. *)

From Stdlib Require Import ZArith NArith List String Ascii Bool Lia Sorted.
From Stdlib Require Import Decimal DecimalString DecimalFacts DecimalPos DecimalN.
From Stdlib Require Import Floats.SpecFloat.
Import ListNotations.

#[local] Open Scope string_scope.
#[local] Open Scope Z_scope.

(** ** Python strings *)

Module PyStr.

Definition in_range (lo hi n : N) : bool := ((lo <=? n) && (n <=? hi))%N.

(** [str.lower] on one code point below 256: A-Z, and the capital letters
    of Latin-1 (0xC0-0xDE without the multiplication sign 0xD7). *)
Definition lower_char (c : ascii) : ascii :=
  let n := N_of_ascii c in
  if in_range 65 90 n || in_range 192 214 n || in_range 216 222 n
  then ascii_of_N (n + 32) else c.

Fixpoint lower (s : string) : string :=
  match s with
  | EmptyString => EmptyString
  | String c t => String (lower_char c) (lower t)
  end.

(** [s.startswith(p)] *)
Definition startswith (s p : string) : bool := String.prefix p s.

(** [s[n:]] *)
Fixpoint slice_from (n : nat) (s : string) : string :=
  match n, s with
  | O, _ => s
  | S _, EmptyString => EmptyString
  | S k, String _ t => slice_from k t
  end.

(** [needle in hay] *)
Fixpoint contains (hay needle : string) : bool :=
  String.prefix needle hay ||
  match hay with
  | EmptyString => false
  | String _ t => contains t needle
  end.

Definition is_digit (c : ascii) : bool := in_range 48 57 (N_of_ascii c).

Fixpoint all_digits (s : string) : bool :=
  match s with
  | EmptyString => true
  | String c t => is_digit c && all_digits t
  end.

(** The characters [int] skips around a literal: ASCII white space, and
    the two Latin-1 spaces NEL and NBSP. *)
Definition is_space (c : ascii) : bool :=
  let n := N_of_ascii c in
  in_range 9 13 n || (n =? 32)%N || (n =? 133)%N || (n =? 160)%N.

Fixpoint lstrip (s : string) : string :=
  match s with
  | String c t => if is_space c then lstrip t else s
  | EmptyString => EmptyString
  end.

Fixpoint all_space (s : string) : bool :=
  match s with
  | EmptyString => true
  | String c t => is_space c && all_space t
  end.

(** The digits of a decimal literal, with its single underscores between
    digits removed, and what follows the literal.  [prev] tells whether the
    character before was a digit ([true]) or an underscore ([false]). *)
Fixpoint scan_digits (s : string) (prev : bool) : option (string * string) :=
  match s with
  | String c t =>
      if is_digit c then
        match scan_digits t true with
        | Some (ds, rest) => Some (String c ds, rest)
        | None => None
        end
      else if Ascii.eqb c "_" then
        if prev then
          match t with
          | String c' _ => if is_digit c' then scan_digits t false else None
          | EmptyString => None
          end
        else None
      else if prev then Some (EmptyString, s) else None
  | EmptyString => if prev then Some (EmptyString, s) else None
  end.

Definition N_of_digits (ds : string) : option N :=
  option_map N.of_uint (NilEmpty.uint_of_string ds).

(** The sign in front of a literal: [-], [+] or nothing *)
Definition split_sign (s : string) : bool * string :=
  match s with
  | String c t =>
      if Ascii.eqb c "-" then (true, t)
      else if Ascii.eqb c "+" then (false, t)
      else (false, s)
  | EmptyString => (false, s)
  end.

(** [int(s)] for a [str] in base 10; [None] is [ValueError]. *)
Definition py_int (s : string) : option Z :=
  let '(neg, s2) := split_sign (lstrip s) in
  match s2 with
  | String c _ =>
      if is_digit c then
        match scan_digits s2 true with
        | Some (ds, rest) =>
            if all_space rest then
              match N_of_digits ds with
              | Some n => Some (if neg then - Z.of_N n else Z.of_N n)
              | None => None
              end
            else None
        | None => None
        end
      else None
  | EmptyString => None
  end.

(** The decimal digits of a natural number, ["0"] for zero. *)
Definition str_of_N (n : N) : string := NilEmpty.string_of_uint (N.to_uint n).

(** [str(z)] for an [int] *)
Definition str_of_Z (z : Z) : string :=
  match z with
  | Zneg p => String "-" (str_of_N (Npos p))
  | _ => str_of_N (Z.to_N z)
  end.

Fixpoint zeros (n : nat) : string :=
  match n with
  | O => EmptyString
  | S k => String "0" (zeros k)
  end.

Definition zfill (w : nat) (s : string) : string :=
  zeros (w - String.length s) ++ s.

(** [f"{z:03d}"]: the sign counts in the width of 3. *)
Definition format_03d (z : Z) : string :=
  match z with
  | Zneg p => String "-" (zfill 2 (str_of_N (Npos p)))
  | _ => zfill 3 (str_of_N (Z.to_N z))
  end.

End PyStr.

(** ** Values and dictionaries *)

Inductive value : Type :=
| VNone
| VInt (z : Z)
| VStr (s : string).

(** [a == b] *)
Definition value_eqb (a b : value) : bool :=
  match a, b with
  | VNone, VNone => true
  | VInt x, VInt y => Z.eqb x y
  | VStr x, VStr y => String.eqb x y
  | _, _ => false
  end.

(** [bool(v)] *)
Definition truthy (v : value) : bool :=
  match v with
  | VNone => false
  | VInt z => negb (Z.eqb z 0)
  | VStr s => negb (String.eqb s "")
  end.

(** [str(v)] *)
Definition py_str (v : value) : string :=
  match v with
  | VNone => "None"
  | VInt z => PyStr.str_of_Z z
  | VStr s => s
  end.

Section Dict.
Context {K V : Type}.
Variable eqb : K -> K -> bool.

Definition dict : Type := list (K * V).

(** [d.get(k)] *)
Fixpoint dict_get (d : dict) (k : K) : option V :=
  match d with
  | [] => None
  | (k', v) :: t => if eqb k' k then Some v else dict_get t k
  end.

(** [k in d] *)
Definition dict_mem (d : dict) (k : K) : bool :=
  match dict_get d k with Some _ => true | None => false end.

(** [d[k] = v] *)
Fixpoint dict_set (d : dict) (k : K) (v : V) : dict :=
  match d with
  | [] => [(k, v)]
  | (k', v') :: t =>
      if eqb k' k then (k', v) :: t else (k', v') :: dict_set t k v
  end.

(** [del d[k]] for a present key *)
Fixpoint dict_del (d : dict) (k : K) : dict :=
  match d with
  | [] => []
  | (k', v') :: t => if eqb k' k then t else (k', v') :: dict_del t k
  end.

Definition dict_keys (d : dict) : list K := map fst d.
Definition dict_values (d : dict) : list V := map snd d.

Definition dict_wf (d : dict) : Prop := NoDup (dict_keys d).
End Dict.

Arguments dict : clear implicits.

Definition record : Type := dict string value.
Definition store : Type := dict string record.

Definition rget (r : record) (k : string) : option value := dict_get String.eqb r k.
Definition rset (r : record) (k : string) (v : value) : record := dict_set String.eqb r k v.
Definition sget (s : store) (k : string) : option record := dict_get String.eqb s k.
Definition sset (s : store) (k : string) (r : record) : store := dict_set String.eqb s k r.
Definition sdel (s : store) (k : string) : store := dict_del String.eqb s k.

(** ** The JSON text of the backing file

    [json.dump(obj, file, indent=4)] and [json.load(file)].  The persisted
    layout is an object of objects of scalars.  A text that holds anything
    else (a float, a boolean, an array, a deeper nesting, a code point from
    256 on) decodes to a value outside the value type of this model:
    [json_load] recognises such a text and reports it as [Foreign], apart
    from the texts on which [json.load] raises.  The limits of the
    interpreter (recursion depth, digits of an [int] literal) are not
    modelled. *)

Module Json.

Definition dquote : ascii := "034"%char.
Definition newline : ascii := "010"%char.

Definition hex_digit (n : N) : ascii :=
  if (n <? 10)%N then ascii_of_N (48 + n) else ascii_of_N (87 + n).

(** One character of [py_encode_basestring_ascii]: the two-character
    escapes of [ESCAPE_DCT], the character itself from space to tilde,
    and [\u00xx] in lowercase for the rest. *)
Definition escape_char (c : ascii) : string :=
  let n := N_of_ascii c in
  if (n =? 34)%N then "\" ++ String dquote ""
  else if (n =? 92)%N then "\\"
  else if (n =? 8)%N then "\b"
  else if (n =? 12)%N then "\f"
  else if (n =? 10)%N then "\n"
  else if (n =? 13)%N then "\r"
  else if (n =? 9)%N then "\t"
  else if PyStr.in_range 32 126 n then String c ""
  else "\u00" ++ String (hex_digit (n / 16)) (String (hex_digit (n mod 16)) "").

Fixpoint escape (s : string) : string :=
  match s with
  | EmptyString => EmptyString
  | String c t => escape_char c ++ escape t
  end.

Definition encode_string (s : string) : string :=
  String dquote (escape s ++ String dquote "").

Definition dump_value (v : value) : string :=
  match v with
  | VNone => "null"
  | VInt z => PyStr.str_of_Z z
  | VStr s => encode_string s
  end.

Fixpoint spaces (n : nat) : string :=
  match n with
  | O => EmptyString
  | S k => String " " (spaces k)
  end.

(** ['\n' + _indent * _current_indent_level] *)
Definition newline_indent (level : nat) : string :=
  String newline (spaces (4 * level)).

Section Dump.
Context {V : Type}.
Variable enc : V -> string.

Fixpoint dump_items (sep : string) (items : list (string * V)) : string :=
  match items with
  | [] => ""
  | [(k, v)] => encode_string k ++ ": " ++ enc v
  | (k, v) :: rest =>
      encode_string k ++ ": " ++ enc v ++ sep ++ dump_items sep rest
  end.

(** [_iterencode_dict] at nesting depth [level] *)
Definition dump_dict (level : nat) (d : dict string V) : string :=
  match d with
  | [] => "{}"
  | _ =>
      "{" ++ newline_indent (S level)
          ++ dump_items ("," ++ newline_indent (S level)) d
          ++ newline_indent level ++ "}"
  end.

(** The text that follows the first member of an object at depth [l] *)
Fixpoint tail_text (l : nat) (items : list (string * V)) (rest : string) : string :=
  match items with
  | [] => newline_indent l ++ String "}" rest
  | (k, v) :: more =>
      "," ++ newline_indent (S l) ++ encode_string k ++ ": " ++ enc v
          ++ tail_text l more rest
  end.
End Dump.

Definition json_dump (s : store) : string :=
  dump_dict (dump_dict dump_value 1) 0 s.

(** [WHITESPACE.match]: space, tab, line feed, carriage return *)
Definition is_ws (c : ascii) : bool :=
  let n := N_of_ascii c in
  (n =? 32)%N || (n =? 9)%N || (n =? 10)%N || (n =? 13)%N.

Fixpoint skip_ws (s : string) : string :=
  match s with
  | String c t => if is_ws c then skip_ws t else s
  | EmptyString => EmptyString
  end.

Definition hex_value (c : ascii) : option N :=
  let n := N_of_ascii c in
  if PyStr.in_range 48 57 n then Some (n - 48)%N
  else if PyStr.in_range 97 102 n then Some (n - 87)%N
  else if PyStr.in_range 65 70 n then Some (n - 55)%N
  else None.

Definition hex4 (a b c d : ascii) : option N :=
  match hex_value a, hex_value b, hex_value c, hex_value d with
  | Some x, Some y, Some z, Some w => Some (((x * 16 + y) * 16 + z) * 16 + w)%N
  | _, _, _, _ => None
  end.

(** The character a backslash escape stands for ([BACKSLASH]) *)
Definition unescape (e : ascii) : option ascii :=
  let n := N_of_ascii e in
  if (n =? 34)%N then Some dquote
  else if (n =? 92)%N then Some "\"%char
  else if (n =? 47)%N then Some "/"%char
  else if (n =? 98)%N then Some "008"%char
  else if (n =? 102)%N then Some "012"%char
  else if (n =? 110)%N then Some "010"%char
  else if (n =? 114)%N then Some "013"%char
  else if (n =? 116)%N then Some "009"%char
  else None.

Definition cons_result (c : ascii) (r : option (string * string)) :
  option (string * string) :=
  match r with
  | Some (body, rest) => Some (String c body, rest)
  | None => None
  end.

(** [scanstring] in strict mode, from just after the opening quote: the
    decoded string and the text after the closing quote. *)
Fixpoint scanstring (s : string) : option (string * string) :=
  match s with
  | EmptyString => None
  | String c t =>
      if Ascii.eqb c dquote then Some (EmptyString, t)
      else if Ascii.eqb c "\" then
        match t with
        | String e t' =>
            if Ascii.eqb e "u" then
              match t' with
              | String h1 (String h2 (String h3 (String h4 t''))) =>
                  match hex4 h1 h2 h3 h4 with
                  | Some n =>
                      if (n <? 256)%N
                      then cons_result (ascii_of_N n) (scanstring t'')
                      else None
                  | None => None
                  end
              | _ => None
              end
            else
              match unescape e with
              | Some c' => cons_result c' (scanstring t')
              | None => None
              end
        | EmptyString => None
        end
      else if (N_of_ascii c <? 32)%N then None
      else cons_result c (scanstring t)
  end.

Fixpoint span_digits (s : string) : string * string :=
  match s with
  | String c t =>
      if PyStr.is_digit c
      then let '(ds, rest) := span_digits t in (String c ds, rest)
      else (EmptyString, s)
  | EmptyString => (EmptyString, EmptyString)
  end.

(** [NUMBER_RE] restricted to integers: an optional minus sign, then
    [0] or a digit from 1 to 9 followed by digits. *)
Definition parse_number (s : string) : option (Z * string) :=
  let '(neg, s1) :=
    match s with
    | String c t => if Ascii.eqb c "-" then (true, t) else (false, s)
    | EmptyString => (false, s)
    end in
  let '(ds, rest) := span_digits s1 in
  match ds with
  | EmptyString => None
  | String c t =>
      if Ascii.eqb c "0" && negb (String.eqb t "") then None
      else
        match PyStr.N_of_digits ds with
        | Some n => Some (if neg then - Z.of_N n else Z.of_N n, rest)
        | None => None
        end
  end.

(** [scan_once] on a scalar *)
Definition parse_scalar (s : string) : option (value * string) :=
  match s with
  | String c t =>
      if Ascii.eqb c dquote then
        match scanstring t with
        | Some (body, rest) => Some (VStr body, rest)
        | None => None
        end
      else if Ascii.eqb c "n" then
        match t with
        | String "u" (String "l" (String "l" rest)) => Some (VNone, rest)
        | _ => None
        end
      else
        match parse_number s with
        | Some (z, rest) => Some (VInt z, rest)
        | None => None
        end
  | EmptyString => None
  end.

Section Object.
Context {V : Type}.
Variable parse_member_value : string -> option (V * string).

(** The loop of [JSONObject], from just after the opening quote of a
    key; [acc] is the dict built from the pairs read so far. *)
Fixpoint members (fuel : nat) (s : string) (acc : dict string V) :
  option (dict string V * string) :=
  match fuel with
  | O => None
  | S fuel' =>
      match scanstring s with
      | None => None
      | Some (key, s1) =>
          match skip_ws s1 with
          | String ":" s2 =>
              match parse_member_value (skip_ws s2) with
              | None => None
              | Some (v, s3) =>
                  let acc' := dict_set String.eqb acc key v in
                  match skip_ws s3 with
                  | String "}" s4 => Some (acc', s4)
                  | String "," s4 =>
                      match skip_ws s4 with
                      | String c s5 =>
                          if Ascii.eqb c dquote
                          then members fuel' s5 acc'
                          else None
                      | EmptyString => None
                      end
                  | _ => None
                  end
              end
          | _ => None
          end
      end
  end.

(** [JSONObject] on a text that starts at the opening brace.  Every
    member takes at least one character, so the length of the text is
    fuel enough. *)
Definition parse_object (s : string) : option (dict string V * string) :=
  match s with
  | String "{" s1 =>
      match skip_ws s1 with
      | String c s2 =>
          if Ascii.eqb c "}" then Some ([], s2)
          else if Ascii.eqb c dquote then members (String.length s2) s2 []
          else None
      | EmptyString => None
      end
  | _ => None
  end.
End Object.

Definition parse_record : string -> option (record * string) :=
  parse_object parse_scalar.

Definition parse_store : string -> option (store * string) :=
  parse_object parse_record.

(** *** The grammar that [json.load] accepts

    The three functions below follow the scanner over any JSON value
    without building it.  They tell a text that [json.load] decodes from
    one on which it raises [JSONDecodeError], also when the value decoded
    is not of the persisted layout. *)

Inductive scan : Type :=
| Scanned (rest : string)   (* a value ends where [rest] starts *)
| Malformed                 (* [JSONDecodeError] *)
| Exhausted.                (* the fuel ran out *)

Definition scan_of (r : option string) : scan :=
  match r with
  | Some rest => Scanned rest
  | None => Malformed
  end.

(** [scanstring] in strict mode without the decoded text: any four hex
    digits make a [\u] escape. *)
Fixpoint skip_string (s : string) : option string :=
  match s with
  | EmptyString => None
  | String c t =>
      if Ascii.eqb c dquote then Some t
      else if Ascii.eqb c "\" then
        match t with
        | String e t' =>
            if Ascii.eqb e "u" then
              match t' with
              | String h1 (String h2 (String h3 (String h4 t''))) =>
                  match hex4 h1 h2 h3 h4 with
                  | Some _ => skip_string t''
                  | None => None
                  end
              | _ => None
              end
            else
              match unescape e with
              | Some _ => skip_string t'
              | None => None
              end
        | EmptyString => None
        end
      else if (N_of_ascii c <? 32)%N then None
      else skip_string t
  end.

Fixpoint strip_prefix (p s : string) : option string :=
  match p, s with
  | EmptyString, _ => Some s
  | String a p', String b s' => if Ascii.eqb a b then strip_prefix p' s' else None
  | String _ _, EmptyString => None
  end.

(** The named constants of [scan_once] *)
Definition constants : list string :=
  ["null"; "true"; "false"; "NaN"; "Infinity"; "-Infinity"].

Fixpoint skip_constant (names : list string) (s : string) : option string :=
  match names with
  | [] => None
  | name :: more =>
      match strip_prefix name s with
      | Some rest => Some rest
      | None => skip_constant more s
      end
  end.

(** The optional parts of [NUMBER_RE]: a point followed by digits, and
    an exponent mark, an optional sign and digits.  A part that is not
    complete is not consumed. *)
Definition skip_fraction (s : string) : string :=
  match s with
  | String "." t =>
      match span_digits t with
      | (EmptyString, _) => s
      | (_, rest) => rest
      end
  | _ => s
  end.

Definition skip_exponent (s : string) : string :=
  match s with
  | String c t =>
      if Ascii.eqb c "e" || Ascii.eqb c "E" then
        let t1 :=
          match t with
          | String d t' => if Ascii.eqb d "+" || Ascii.eqb d "-" then t' else t
          | EmptyString => t
          end in
        match span_digits t1 with
        | (EmptyString, _) => s
        | (_, rest) => rest
        end
      else s
  | EmptyString => s
  end.

(** [NUMBER_RE]: an optional minus sign, [0] or a digit from 1 to 9
    followed by digits, then the optional parts. *)
Definition skip_number (s : string) : option string :=
  let s1 :=
    match s with
    | String c t => if Ascii.eqb c "-" then t else s
    | EmptyString => s
    end in
  match s1 with
  | String c t =>
      if Ascii.eqb c "0" then Some (skip_exponent (skip_fraction t))
      else if PyStr.is_digit c
      then Some (skip_exponent (skip_fraction (snd (span_digits t))))
      else None
  | EmptyString => None
  end.

(** [scan_once], the loop of [JSONObject] from just after the opening
    quote of a key, and the loop of [JSONArray] from the start of an
    element. *)
Fixpoint scan_value (fuel : nat) (s : string) : scan :=
  match fuel with
  | O => Exhausted
  | S fuel' =>
      match s with
      | EmptyString => Malformed
      | String c t =>
          if Ascii.eqb c dquote then scan_of (skip_string t)
          else if Ascii.eqb c "{" then
            match skip_ws t with
            | String c1 t1 =>
                if Ascii.eqb c1 "}" then Scanned t1
                else if Ascii.eqb c1 dquote then scan_pairs fuel' t1
                else Malformed
            | EmptyString => Malformed
            end
          else if Ascii.eqb c "[" then
            match skip_ws t with
            | String c1 t1 =>
                if Ascii.eqb c1 "]" then Scanned t1
                else scan_elements fuel' (String c1 t1)
            | EmptyString => Malformed
            end
          else
            match skip_constant constants s with
            | Some rest => Scanned rest
            | None => scan_of (skip_number s)
            end
      end
  end
with scan_pairs (fuel : nat) (s : string) : scan :=
  match fuel with
  | O => Exhausted
  | S fuel' =>
      match skip_string s with
      | None => Malformed
      | Some s1 =>
          match skip_ws s1 with
          | String ":" s2 =>
              match scan_value fuel' (skip_ws s2) with
              | Scanned s3 =>
                  match skip_ws s3 with
                  | String "}" s4 => Scanned s4
                  | String "," s4 =>
                      match skip_ws s4 with
                      | String c s5 =>
                          if Ascii.eqb c dquote then scan_pairs fuel' s5
                          else Malformed
                      | EmptyString => Malformed
                      end
                  | _ => Malformed
                  end
              | Malformed => Malformed
              | Exhausted => Exhausted
              end
          | _ => Malformed
          end
      end
  end
with scan_elements (fuel : nat) (s : string) : scan :=
  match fuel with
  | O => Exhausted
  | S fuel' =>
      match scan_value fuel' s with
      | Scanned s1 =>
          match skip_ws s1 with
          | String "]" s2 => Scanned s2
          | String "," s2 => scan_elements fuel' (skip_ws s2)
          | _ => Malformed
          end
      | Malformed => Malformed
      | Exhausted => Exhausted
      end
  end.

(** What [json.load] does with a text *)
Inductive loaded : Type :=
| Decoded (s : store)   (* it returns a mapping of the persisted layout *)
| DecodeError           (* it raises [JSONDecodeError] *)
| Foreign.              (* it returns a value outside the layout *)

(** [JSONDecoder.decode]: one value between optional white space, and
    nothing after it.  A scan takes at most two steps for a character, so
    twice the length of the text is fuel enough. *)
Definition json_load (txt : string) : loaded :=
  match parse_store (skip_ws txt) with
  | Some (s, rest) =>
      match skip_ws rest with
      | EmptyString => Decoded s
      | _ => DecodeError
      end
  | None =>
      match scan_value (2 * String.length txt + 2) (skip_ws txt) with
      | Scanned rest =>
          match skip_ws rest with
          | EmptyString => Foreign
          | _ => DecodeError
          end
      | Malformed => DecodeError
      | Exhausted => Foreign
      end
  end.

(** The dict that the pairs of an object text make *)
Definition build {V : Type} (acc : dict string V) (items : list (string * V)) : dict string V :=
  fold_left (fun a kv => dict_set String.eqb a (fst kv) (snd kv)) items acc.

(** A JSON text after a value: it does not go on with a digit. *)
Definition no_digit_head (rest : string) : Prop :=
  forall c t, rest = String c t -> PyStr.is_digit c = false.

(** A JSON text after a member value: a comma or a line feed comes next. *)
Definition delimited (rest : string) : Prop :=
  exists t, rest = String "," t \/ rest = String newline t.

End Json.

(** ** Python floats

    A [float] is a binary64 number ([spec_float] at precision 53).  True
    division of two [int]s and [round(x, 2)] are both correctly rounded
    (to nearest, ties to even) in CPython; they are written here with the
    exact integer arithmetic of the operands and one correctly rounded
    division. *)

Module PyFloat.

Definition prec : Z := 53.
Definition emax : Z := 1024.

(** An [int] as the exact operand of a division *)
Definition of_int (z : Z) : spec_float :=
  match z with
  | Z0 => S754_zero false
  | Zpos p => S754_finite false p 0
  | Zneg p => S754_finite true p 0
  end.

(** [a / b] for two [int]s; [None] is [ZeroDivisionError] or
    [OverflowError]. *)
Definition truediv (a b : Z) : option spec_float :=
  if b =? 0 then None
  else
    match SFdiv prec emax (of_int a) (of_int b) with
    | S754_infinity _ => None
    | q => Some q
    end.

(** The integer nearest to [num / den], ties to even, for [0 < den] *)
Definition round_half_even (num den : Z) : Z :=
  let q := num / den in
  let r := num mod den in
  match 2 * r ?= den with
  | Lt => q
  | Gt => q + 1
  | Eq => if Z.even q then q else q + 1
  end.

(** [round(x, 2)]: the exact value of [x] times 100 is rounded to an
    integer [k], and the result is the float nearest to [k / 100]. *)
Definition round2 (x : spec_float) : spec_float :=
  match x with
  | S754_finite s m e =>
      let k :=
        if 0 <=? e then Zpos m * 2 ^ e * 100
        else round_half_even (Zpos m * 100) (2 ^ (- e)) in
      match k with
      | Z0 => S754_zero s
      | _ => SFdiv prec emax (of_int (if s then - k else k)) (of_int 100)
      end
  | _ => x
  end.


End PyFloat.

(** ** The record manager *)

Record manager : Type := mk_manager {
  students : store;         (* self.students *)
  disk : option string      (* the text of the file self.filename *)
}.

(** The outcome of a call that can return a value of no modelled type *)
Inductive outcome (A : Type) : Type :=
| Returns (a : A)
| Outside.

Arguments Returns {A} a.
Arguments Outside {A}.

(** [load_records]: a missing file and a text on which [json.load] raises
    [JSONDecodeError] both give the empty mapping; any other text gives
    what [json.load] returns. *)
Definition load_records (d : option string) : outcome store :=
  match d with
  | Some txt =>
      match Json.json_load txt with
      | Json.Decoded s => Returns s
      | Json.DecodeError => Returns []
      | Json.Foreign => Outside
      end
  | None => Returns []
  end.

(** [__init__] *)
Definition init (d : option string) : outcome manager :=
  match load_records d with
  | Returns s => Returns {| students := s; disk := d |}
  | Outside => Outside
  end.

(** The manager of a start without a backing file *)
Definition empty_manager : manager := {| students := []; disk := None |}.

(** [save_records] overwrites the file with the dump of the mapping. *)
Definition save_records (m : manager) : manager :=
  {| students := students m; disk := Some (Json.json_dump (students m)) |}.

(** [[int(sid[3:]) for sid in keys if sid.startswith("STU")]] *)
Fixpoint suffix_ids (keys : list string) : option (list Z) :=
  match keys with
  | [] => Some []
  | sid :: rest =>
      if PyStr.startswith sid "STU" then
        match PyStr.py_int (PyStr.slice_from 3 sid) with
        | Some n => option_map (cons n) (suffix_ids rest)
        | None => None
        end
      else suffix_ids rest
  end.

(** [max(ids)] for a list [i :: rest] *)
Definition py_max (i : Z) (rest : list Z) : Z := fold_left Z.max rest i.

Definition generate_id (s : store) : option string :=
  match s with
  | [] => Some "STU001"
  | _ =>
      match suffix_ids (dict_keys s) with
      | Some ids =>
          let new_id :=
            match ids with
            | i :: rest => py_max i rest + 1
            | [] => 1
            end in
          Some ("STU" ++ PyStr.format_03d new_id)
      | None => None
      end
  end.

(** The numeric suffix a key carries, if it carries the prefix *)
Definition suffix_of (sid : string) : option Z :=
  if PyStr.startswith sid "STU" then PyStr.py_int (PyStr.slice_from 3 sid)
  else None.

(** [add_student]; [t_created] and [t_updated] are the two clock readings. *)
Definition add_student (m : manager) (name age grade email phone : value)
  (t_created t_updated : string) : option (string * manager) :=
  match generate_id (students m) with
  | Some student_id =>
      let student : record :=
        [ ("id", VStr student_id); ("name", name); ("age", age);
          ("grade", grade); ("email", email); ("phone", phone);
          ("created_at", VStr t_created); ("updated_at", VStr t_updated) ] in
      Some (student_id,
            save_records {| students := sset (students m) student_id student;
                            disk := disk m |})
  | None => None
  end.

Definition valid_fields : list string := ["name"; "age"; "grade"; "email"; "phone"].

Definition is_valid_field (field : string) : bool :=
  existsb (String.eqb field) valid_fields.

Definition is_none (v : value) : bool :=
  match v with VNone => true | _ => false end.

(** One turn of the loop over [kwargs.items()] *)
Definition apply_field (r : record) (kv : string * value) : record :=
  let '(field, v) := kv in
  if is_valid_field field && negb (is_none v) then rset r field v else r.

(** [update_student]; [now] is the clock reading. *)
Definition update_student (m : manager) (student_id : string)
  (kwargs : list (string * value)) (now : string) : bool * manager :=
  match sget (students m) student_id with
  | None => (false, m)
  | Some r =>
      let r1 := fold_left apply_field kwargs r in
      let r2 := rset r1 "updated_at" (VStr now) in
      (true, save_records {| students := sset (students m) student_id r2;
                             disk := disk m |})
  end.

Definition delete_student (m : manager) (student_id : string) : bool * manager :=
  if dict_mem String.eqb (students m) student_id
  then (true, save_records {| students := sdel (students m) student_id;
                              disk := disk m |})
  else (false, m).

Definition get_student (m : manager) (student_id : string) : option record :=
  sget (students m) student_id.

(** The inner loop of [search_students]: [true] when [match] is still
    [True] after the criteria. *)
Fixpoint record_matches (student : record) (criteria : list (string * value)) : bool :=
  match criteria with
  | [] => true
  | (key, v) :: rest =>
      match rget student key with
      | Some field =>
          if truthy v then
            if match v with
               | VStr sv =>
                   negb (PyStr.contains (PyStr.lower (py_str field)) (PyStr.lower sv))
               | _ => false
               end
            then false
            else if negb (value_eqb field v) then false
            else record_matches student rest
          else record_matches student rest
      | None => record_matches student rest
      end
  end.

Definition search_students (m : manager) (criteria : list (string * value)) : list record :=
  filter (fun student => record_matches student criteria) (dict_values (students m)).

Definition get_all_students (m : manager) : list record :=
  dict_values (students m).

(** *** Statistics *)

Inductive number : Type :=
| NInt (z : Z)
| NFloat (f : spec_float).

Record statistics : Type := mk_statistics {
  total_students : Z;
  average_age : number;
  grade_distribution : dict value Z
}.

(** [[student['age'] for student in values]]; [None] is [KeyError]. *)
Fixpoint ages_of (rs : list record) : option (list value) :=
  match rs with
  | [] => Some []
  | r :: rest =>
      match rget r "age" with
      | Some a => option_map (cons a) (ages_of rest)
      | None => None
      end
  end.

(** [sum(ages)]; [None] is [TypeError]. *)
Fixpoint py_sum (acc : Z) (vs : list value) : option Z :=
  match vs with
  | [] => Some acc
  | VInt a :: rest => py_sum (acc + a) rest
  | _ :: _ => None
  end.

(** The loop that counts the grades; [None] is [KeyError]. *)
Fixpoint count_grades (rs : list record) (grades : dict value Z) : option (dict value Z) :=
  match rs with
  | [] => Some grades
  | r :: rest =>
      match rget r "grade" with
      | Some grade =>
          let n := match dict_get value_eqb grades grade with
                   | Some c => c
                   | None => 0
                   end in
          count_grades rest (dict_set value_eqb grades grade (n + 1))
      | None => None
      end
  end.

Definition get_statistics (m : manager) : option statistics :=
  match students m with
  | [] => Some {| total_students := 0; average_age := NInt 0;
                  grade_distribution := [] |}
  | _ =>
      let total := Z.of_nat (List.length (students m)) in
      match ages_of (dict_values (students m)) with
      | None => None
      | Some ages =>
          match py_sum 0 ages with
          | None => None
          | Some total_age =>
              match PyFloat.truediv total_age total with
              | None => None
              | Some average =>
                  match count_grades (dict_values (students m)) [] with
                  | None => None
                  | Some grades =>
                      Some {| total_students := total;
                              average_age := NFloat (PyFloat.round2 average);
                              grade_distribution := grades |}
                  end
              end
          end
      end
  end.

(** ** Runs of the store: the operations a caller can issue *)

Inductive op : Type :=
| OpAdd (name age grade email phone : value) (t_created t_updated : string)
| OpUpdate (student_id : string) (kwargs : list (string * value)) (now : string)
| OpDelete (student_id : string).

(** One call; a call that raises leaves the manager as it was. *)
Definition step (m : manager) (o : op) : manager :=
  match o with
  | OpAdd name age grade email phone t1 t2 =>
      match add_student m name age grade email phone t1 t2 with
      | Some (_, m') => m'
      | None => m
      end
  | OpUpdate sid kwargs now => snd (update_student m sid kwargs now)
  | OpDelete sid => snd (delete_student m sid)
  end.

(** The identifier a call issues, if it is an add that returns *)
Definition issued (m : manager) (o : op) : option string :=
  match o with
  | OpAdd name age grade email phone t1 t2 =>
      option_map fst (add_student m name age grade email phone t1 t2)
  | _ => None
  end.

(** The identifiers issued along a run, oldest first *)
Fixpoint issued_ids (m : manager) (ops : list op) : list string :=
  match ops with
  | [] => []
  | o :: rest =>
      match issued m o with
      | Some sid => sid :: issued_ids (step m o) rest
      | None => issued_ids (step m o) rest
      end
  end.

Definition run (m : manager) (ops : list op) : manager := fold_left step ops m.

Inductive reachable (m0 : manager) : manager -> Prop :=
| reach_refl : reachable m0 m0
| reach_step : forall m o, reachable m0 m -> reachable m0 (step m o).

(** ** Predicates of the specification *)

(** Every record's ['id'] field is the key it is stored under. *)
Definition key_consistent (s : store) : Prop :=
  forall k r, sget s k = Some r -> rget r "id" = Some (VStr k).

(** No key occurs twice, in the mapping and in each record. *)
Definition store_wf (s : store) : Prop :=
  dict_wf s /\ Forall (fun kr => dict_wf (snd kr)) s.

(** Every key that carries the prefix continues with an [int] literal. *)
Definition suffixes_parse (s : store) : Prop :=
  forall k, In k (dict_keys s) -> PyStr.startswith k "STU" = true ->
            PyStr.py_int (PyStr.slice_from 3 k) <> None.

(** A call that supplies a value for the grade only: every other keyword
    it passes is [None]. *)
Definition only_grade (kwargs : list (string * value)) : Prop :=
  Forall (fun kv => fst kv = "grade" \/ snd kv = VNone) kwargs.

(** A field assignment that [update_student] carries out *)
Definition effective (kv : string * value) : bool :=
  is_valid_field (fst kv) && negb (is_none (snd kv)).





(** The matching rule in the words of the specification: a criterion whose
    value is null or empty is skipped; a string criterion matches when its
    value, case folded, is contained in the stringified field, case folded;
    any other criterion matches when the field equals it. *)
Definition blank (v : value) : bool :=
  match v with
  | VNone => true
  | VStr "" => true
  | _ => false
  end.

Definition spec_criterion_matches (student : record) (key : string) (v : value) : bool :=
  if blank v then true
  else match rget student key with
       | Some field =>
           match v with
           | VStr sv => PyStr.contains (PyStr.lower (py_str field)) (PyStr.lower sv)
           | _ => value_eqb field v
           end
       | None => false
       end.

(** ** Sample data *)

Definition sample_record : record :=
  [ ("id", VStr "STU001"); ("name", VStr "Alice"); ("age", VInt 10);
    ("grade", VStr "A"); ("email", VNone); ("phone", VNone);
    ("created_at", VStr "2024-01-01 10:00:00");
    ("updated_at", VStr "2024-01-01 10:00:00") ].

Definition sample_manager : manager :=
  {| students := [("STU001", sample_record)]; disk := None |}.

(** The keywords the menu passes when only the grade is entered *)
Definition grade_only_kwargs : list (string * value) :=
  [ ("name", VNone); ("age", VNone); ("grade", VStr "B");
    ("email", VNone); ("phone", VNone) ].

(** The largest numeric suffix among the keys that carry the prefix *)
Definition max_suffix (s : store) : option Z :=
  match suffix_ids (dict_keys s) with
  | Some (i :: rest) => Some (py_max i rest)
  | _ => None
  end.

Definition is_add (o : op) : bool :=
  match o with OpAdd _ _ _ _ _ _ _ => true | _ => false end.

Definition is_delete (o : op) : bool :=
  match o with OpDelete _ => true | _ => false end.

(** A run without a delete, and the number of its adds *)
Definition no_delete (ops : list op) : bool :=
  forallb (fun o => negb (is_delete o)) ops.

Definition count_adds (ops : list op) : nat := List.length (filter is_add ops).

(** A backing file whose only key carries the prefix and no number *)
Definition stray_key_text : string :=
  "{" ++ String Json.dquote ("STUdent" ++ String Json.dquote ": {}}").

Definition stray_manager : manager :=
  {| students := [("STUdent", [])]; disk := Some stray_key_text |}.

(** Three adds, and the run that deletes the record with the largest
    suffix before the third *)
Definition add_ann : op :=
  OpAdd (VStr "Ann") (VInt 12) (VStr "A") VNone VNone
        "2024-01-01 10:00:00" "2024-01-01 10:00:00".
Definition add_bob : op :=
  OpAdd (VStr "Bob") (VInt 13) (VStr "B") VNone VNone
        "2024-01-02 10:00:00" "2024-01-02 10:00:00".
Definition add_cy : op :=
  OpAdd (VStr "Cy") (VInt 14) (VStr "C") VNone VNone
        "2024-01-03 10:00:00" "2024-01-03 10:00:00".

Definition reuse_run : list op := [add_ann; add_bob; OpDelete "STU002"; add_cy].

(** The run that issues 1, 2, 3 and, after the two largest are deleted,
    2 again *)
Definition falling_run : list op :=
  [add_ann; add_bob; add_cy; OpDelete "STU003"; OpDelete "STU002"; add_cy].

(** A delete that removes a record holding the largest suffix present *)
Definition removes_max (s : store) (student_id : string) : bool :=
  dict_mem String.eqb s student_id &&
  match suffix_of student_id, max_suffix s with
  | Some j, Some top => j =? top
  | _, _ => false
  end.

(** A run none of whose deletes removes a record holding the largest
    suffix present at that moment *)
Fixpoint max_kept (m : manager) (ops : list op) : bool :=
  match ops with
  | [] => true
  | o :: rest =>
      match o with
      | OpDelete student_id => negb (removes_max (students m) student_id)
      | _ => true
      end && max_kept (step m o) rest
  end.

(** The identifier with decimal suffix [i] on three digits *)
Definition nth_id (i : nat) : string := "STU" ++ PyStr.format_03d (Z.of_nat i).

(** The sum of a list of [int]s *)
Definition Zsum (l : list Z) : Z := fold_right Z.add 0 l.

(** Three records with ages 10, 20, 15 and grades A, A, B *)
Definition pupil (sid : string) (age : Z) (grade : string) : string * record :=
  (sid, [ ("id", VStr sid); ("name", VStr "N"); ("age", VInt age);
          ("grade", VStr grade); ("email", VNone); ("phone", VNone);
          ("created_at", VStr "2024-01-01 10:00:00");
          ("updated_at", VStr "2024-01-01 10:00:00") ]).

Definition class_of_three : manager :=
  {| students := [pupil "STU001" 10 "A"; pupil "STU002" 20 "A"; pupil "STU003" 15 "B"];
     disk := None |}.





(** ** Further predicates *)

(** The record [add_student] builds *)
Definition new_record (sid : string) (name age grade email phone : value)
  (t_created t_updated : string) : record :=
  [ ("id", VStr sid); ("name", name); ("age", age);
    ("grade", grade); ("email", email); ("phone", phone);
    ("created_at", VStr t_created); ("updated_at", VStr t_updated) ].

(** What one criterion with a true value tests on a record *)
Definition field_equals (key : string) (v : value) (student : record) : bool :=
  match rget student key with
  | Some field => value_eqb field v
  | None => true
  end.

(** The mapping on disk is the mapping in memory. *)
Definition recoverable (m : manager) : Prop :=
  load_records (disk m) = Returns (students m).

(** The sum of the counts of a grade distribution *)
Definition count_total (d : dict value Z) : Z := Zsum (dict_values d).

(** ** The command-line layer

    The validators of [StudentRecordCLI], its input loop and its backup
    and restore commands.  What [print] writes is not modelled; the lines
    that [input] returns are given as a list, and running out of them is
    [EOFError].  The working directory is a dict from file name to text, in
    the order [os.listdir] reports it; the backing file of the manager is
    not one of the backup files and stays in the manager state. *)

Module Cli.

(** [c.isspace()] for one code point below 256 *)
Definition is_unicode_space (c : ascii) : bool :=
  let n := N_of_ascii c in
  PyStr.in_range 9 13 n || PyStr.in_range 28 32 n || (n =? 133)%N || (n =? 160)%N.

Fixpoint lstrip (s : string) : string :=
  match s with
  | String c t => if is_unicode_space c then lstrip t else s
  | EmptyString => EmptyString
  end.

Fixpoint rstrip (s : string) : string :=
  match s with
  | String c t =>
      match rstrip t with
      | EmptyString => if is_unicode_space c then EmptyString else String c EmptyString
      | t' => String c t'
      end
  | EmptyString => EmptyString
  end.

(** [s.strip()] *)
Definition strip (s : string) : string := lstrip (rstrip s).

(** [validate_age]; [None] is [ValueError]. *)
Definition validate_age (age_str : string) : option Z :=
  match PyStr.py_int age_str with
  | Some age => if (5 <=? age) && (age <=? 100) then Some age else None
  | None => None
  end.

(** The code points of [c.upper()]: sharp s becomes SS, and the capitals
    of the micro sign and of y with diaeresis lie above 255. *)
Definition upper_char (c : ascii) : list N :=
  let n := N_of_ascii c in
  if PyStr.in_range 97 122 n || PyStr.in_range 224 246 n || PyStr.in_range 248 254 n
  then [(n - 32)%N]
  else if (n =? 223)%N then [83%N; 83%N]
  else if (n =? 255)%N then [376%N]
  else if (n =? 181)%N then [924%N]
  else [n].

(** [s.upper()], as code points *)
Definition upper (s : string) : list N :=
  flat_map upper_char (list_ascii_of_string s).

Definition code_points (s : string) : list N :=
  map N_of_ascii (list_ascii_of_string s).

Fixpoint codes_eqb (a b : list N) : bool :=
  match a, b with
  | [], [] => true
  | x :: a', y :: b' => (x =? y)%N && codes_eqb a' b'
  | _, _ => false
  end.

Definition grade_letters : list string := ["A"; "B"; "C"; "D"; "F"].

(** [validate_grade]: the uppercased text when it is one of the five
    letters; [None] is [ValueError]. *)
Definition validate_grade (grade_str : string) : option string :=
  let grade := upper grade_str in
  find (fun letter => codes_eqb grade (code_points letter)) grade_letters.

(** [get_valid_input] with a validation function: the value of the first
    line that validates, and the lines not read yet. *)
Fixpoint get_valid_input {A : Type} (validation_func : string -> option A)
  (lines : list string) : option (A * list string) :=
  match lines with
  | [] => None
  | line :: rest =>
      match validation_func (strip line) with
      | Some value => Some (value, rest)
      | None => get_valid_input validation_func rest
      end
  end.

(** The name of the backup file written at clock reading [stamp]
    (format [%Y%m%d_%H%M%S]) *)
Definition backup_name (stamp : string) : string :=
  "student_records_backup_" ++ stamp ++ ".json".

(** [backup_records_ui]: the working directory [cwd'] after the command
    holds the dump of the mapping under the backup name and every other
    file as before.  The order in which [os.listdir] lists the files is
    the order of the association list, and the command does not determine
    it. *)
Definition backup_records_ui (m : manager) (cwd : dict string string)
  (stamp : string) (cwd' : dict string string) : Prop :=
  dict_wf cwd' /\
  forall f, dict_get String.eqb cwd' f =
            if String.eqb f (backup_name stamp)
            then Some (Json.json_dump (students m))
            else dict_get String.eqb cwd f.

(** [[f for f in os.listdir('.') if f.startswith('student_records_backup')]] *)
Definition backup_files (cwd : dict string string) : list string :=
  filter (fun f => PyStr.startswith f "student_records_backup") (dict_keys cwd).

(** [sorted(names, reverse=True)] *)
Fixpoint insert_desc (f : string) (l : list string) : list string :=
  match l with
  | [] => [f]
  | g :: rest => if String.leb g f then f :: l else g :: insert_desc f rest
  end.

Definition sorted_desc (l : list string) : list string := fold_right insert_desc [] l.

(** [enumerate(l, start)] *)
Fixpoint enumerate {A : Type} (start : Z) (l : list A) : list (Z * A) :=
  match l with
  | [] => []
  | x :: rest => (start, x) :: enumerate (start + 1) rest
  end.

(** The numbered file names that [restore_records_ui] prints before it
    asks for a number *)
Definition restore_menu (cwd : dict string string) : list (Z * string) :=
  enumerate 1 (sorted_desc (backup_files cwd)).

(** [restore_records_ui]; [answer] is the line typed at the prompt.  The
    number indexes [backup_files], the list in [os.listdir] order, not the
    sorted list that was printed.  A [ValueError] of [int] and a
    [JSONDecodeError] are caught and leave the manager as it was. *)
Definition restore_records_ui (m : manager) (cwd : dict string string)
  (answer : string) : outcome manager :=
  match backup_files cwd with
  | [] => Returns m
  | _ =>
      match PyStr.py_int answer with
      | None => Returns m
      | Some choice =>
          if (1 <=? choice) && (choice <=? Z.of_nat (List.length (backup_files cwd)))
          then
            match nth_error (backup_files cwd) (Z.to_nat (choice - 1)) with
            | Some backup_file =>
                match dict_get String.eqb cwd backup_file with
                | Some txt =>
                    match Json.json_load txt with
                    | Json.Decoded backup_data =>
                        Returns (save_records {| students := backup_data;
                                                 disk := disk m |})
                    | Json.DecodeError => Returns m
                    | Json.Foreign => Outside
                    end
                | None => Returns m
                end
            | None => Returns m
            end
          else Returns m
      end
  end.

End Cli.

(** The texts [validate_grade] accepts, each with the grade it returns *)
Definition accepted_grades : list (string * string) :=
  [ ("A", "A"); ("a", "A"); ("B", "B"); ("b", "B"); ("C", "C"); ("c", "C");
    ("D", "D"); ("d", "D"); ("F", "F"); ("f", "F") ].

(** The lines typed for an age: two refused, then 42 between blanks *)
Definition age_lines : list string := ["abc"; "4"; "  42 "; "7"].

(** A working directory with one older backup and a stray file, and the
    same directory after a backup of [class_of_three], the new file listed
    last *)
Definition sample_cwd : dict string string :=
  [ ("notes.txt", "hello");
    ("student_records_backup_20240101_000000.json", "{}") ].

(** A directory whose backups hold a JSON array and a truncated text *)
Definition foreign_cwd : dict string string :=
  [ ("student_records_backup_a.json", "[]");
    ("student_records_backup_b.json", "{") ].

Definition sample_cwd_after : dict string string :=
  [ ("notes.txt", "hello");
    ("student_records_backup_20240101_000000.json", "{}");
    (Cli.backup_name "20240301_120000", Json.json_dump (students class_of_three)) ].

(** The manager after a delete that followed the backup *)
Definition after_delete : manager := snd (delete_student class_of_three "STU002").

(** * Properties *)

(** ** Strings *)

Lemma append_nil_r (s : string) : s ++ "" = s.
Proof. induction s as [|c s IH]; simpl; [reflexivity | now rewrite IH]. Qed.

Lemma append_assoc (a b c : string) : (a ++ b) ++ c = a ++ (b ++ c).
Proof. induction a as [|x a IH]; simpl; [reflexivity | now rewrite IH]. Qed.

Lemma prefix_append (p s : string) : String.prefix p (p ++ s) = true.
Proof.
  induction p as [|c p IH]; simpl.
  - now destruct s.
  - destruct (ascii_dec c c) as [_|ne]; [exact IH | now elim ne].
Qed.

Lemma slice_from_append (p s : string) :
  PyStr.slice_from (String.length p) (p ++ s) = s.
Proof. induction p as [|c p IH]; simpl; [reflexivity | exact IH]. Qed.

(** ** Decimal literals *)

Module DecimalLemmas.
Import PyStr.

Lemma all_digits_uint (d : uint) : all_digits (NilEmpty.string_of_uint d) = true.
Proof. induction d; simpl; auto. Qed.

Lemma all_digits_zeros (n : nat) : all_digits (zeros n) = true.
Proof. induction n; simpl; auto. Qed.

Lemma all_digits_append (a b : string) :
  all_digits (a ++ b) = all_digits a && all_digits b.
Proof.
  induction a as [|c a IH]; simpl; [reflexivity|].
  now rewrite IH, andb_assoc.
Qed.

Lemma digit_not_space (c : ascii) : is_digit c = true -> is_space c = false.
Proof.
  destruct c as [[] [] [] [] [] [] [] []]; vm_compute; congruence.
Qed.

Lemma digit_not_sign (c : ascii) :
  is_digit c = true -> Ascii.eqb c "-" = false /\ Ascii.eqb c "+" = false.
Proof.
  destruct c as [[] [] [] [] [] [] [] []]; vm_compute; intuition congruence.
Qed.

Lemma scan_digits_all (ds rest : string) :
  all_digits ds = true ->
  scan_digits (ds ++ rest) true =
  match scan_digits rest true with
  | Some (ds', r) => Some (ds ++ ds', r)
  | None => None
  end.
Proof.
  induction ds as [|c ds IH]; simpl; intros H.
  - now destruct (scan_digits rest true) as [[? ?]|].
  - apply andb_prop in H as [Hc Hds]. rewrite Hc, (IH Hds).
    now destruct (scan_digits rest true) as [[? ?]|].
Qed.

Lemma N_of_digits_uint (d : uint) :
  N_of_digits (NilEmpty.string_of_uint d) = Some (N.of_uint d).
Proof. unfold N_of_digits. now rewrite NilEmpty.usu. Qed.

Lemma N_of_digits_str (n : N) : N_of_digits (str_of_N n) = Some n.
Proof.
  unfold str_of_N. rewrite N_of_digits_uint.
  now rewrite DecimalN.Unsigned.of_to.
Qed.

Lemma N_of_digits_zero (s : string) :
  N_of_digits (String "0" s) = N_of_digits s.
Proof.
  unfold N_of_digits. simpl.
  now destruct (NilEmpty.uint_of_string s).
Qed.

Lemma N_of_digits_zeros (k : nat) (s : string) :
  N_of_digits (zeros k ++ s) = N_of_digits s.
Proof.
  induction k as [|k IH]; simpl; [reflexivity|].
  now rewrite N_of_digits_zero.
Qed.

(** A padded literal starts with a digit. *)
Lemma digits_head (s : string) :
  all_digits s = true -> s <> "" ->
  exists c t, s = String c t /\ is_digit c = true.
Proof.
  destruct s as [|c t]; simpl; intros H Hne; [now elim Hne|].
  apply andb_prop in H as [Hc _]. now exists c, t.
Qed.

Lemma str_of_N_nonempty (n : N) : str_of_N n <> "".
Proof.
  unfold str_of_N. destruct n as [|p]; [discriminate|].
  simpl. pose proof (DecimalPos.Unsigned.to_uint_nonnil p) as H.
  destruct (Pos.to_uint p); simpl; congruence.
Qed.

Lemma zfill_digits (w : nat) (n : N) :
  all_digits (zfill w (str_of_N n)) = true /\ zfill w (str_of_N n) <> "".
Proof.
  unfold zfill. split.
  - rewrite all_digits_append, all_digits_zeros. apply all_digits_uint.
  - intros H. pose proof (str_of_N_nonempty n) as Hn.
    destruct (zeros _); simpl in H; [contradiction | discriminate].
Qed.

(** Reading back unsigned padded digits *)
Lemma py_int_digits (neg : bool) (s : string) (n : N) :
  all_digits s = true -> s <> "" -> N_of_digits s = Some n ->
  py_int (if neg then String "-" s else s) =
  Some (if neg then - Z.of_N n else Z.of_N n).
Proof.
  intros Hd Hne Hn.
  destruct (digits_head s Hd Hne) as (c & t & -> & Hc).
  assert (Hscan : scan_digits (String c t) true = Some (String c t, "")).
  { rewrite <- (append_nil_r (String c t)) at 1.
    rewrite scan_digits_all by exact Hd. simpl. now rewrite append_nil_r. }
  destruct (digit_not_sign c Hc) as [Hm Hp].
  unfold py_int. destruct neg.
  - change (lstrip (String "-" (String c t))) with (String "-" (String c t)).
    cbn [split_sign]. change (Ascii.eqb "-" "-") with true. cbn iota.
    rewrite Hc, Hscan. cbn [all_space]. now rewrite Hn.
  - cbn [lstrip]. rewrite (digit_not_space c Hc).
    cbn [split_sign]. rewrite Hm, Hp.
    rewrite Hc, Hscan. cbn [all_space]. now rewrite Hn.
Qed.

(** [int(f"{z:03d}") == z] *)
Lemma py_int_format_03d (z : Z) : py_int (format_03d z) = Some z.
Proof.
  destruct z as [|p|p].
  - reflexivity.
  - unfold format_03d. cbn [Z.to_N].
    destruct (zfill_digits 3 (Npos p)) as [Hd Hne].
    apply (py_int_digits false _ (Npos p) Hd Hne).
    unfold zfill. now rewrite N_of_digits_zeros, N_of_digits_str.
  - unfold format_03d.
    destruct (zfill_digits 2 (Npos p)) as [Hd Hne].
    apply (py_int_digits true _ (Npos p) Hd Hne).
    unfold zfill. now rewrite N_of_digits_zeros, N_of_digits_str.
Qed.

End DecimalLemmas.

(** ** Dictionaries *)

Section DictFacts.
Context {K V : Type}.
Variable eqb : K -> K -> bool.
Hypothesis eqb_spec : forall x y, reflect (x = y) (eqb x y).

Implicit Types (d : dict K V) (k : K) (v : V).

Lemma dict_get_set_eq d k v : dict_get eqb (dict_set eqb d k v) k = Some v.
Proof.
  induction d as [|[k' v'] d IH]; simpl.
  - now destruct (eqb_spec k k).
  - destruct (eqb_spec k' k) as [->|ne]; simpl.
    + now destruct (eqb_spec k k).
    + now destruct (eqb_spec k' k).
Qed.

Lemma dict_get_set_ne d k k' v :
  k' <> k -> dict_get eqb (dict_set eqb d k v) k' = dict_get eqb d k'.
Proof.
  intros ne. induction d as [|[k0 v0] d IH]; simpl.
  - destruct (eqb_spec k k'); congruence.
  - destruct (eqb_spec k0 k) as [->|ne0]; simpl.
    + destruct (eqb_spec k k'); congruence.
    + now rewrite IH.
Qed.

Lemma dict_get_none d k : dict_get eqb d k = None <-> ~ In k (dict_keys d).
Proof.
  induction d as [|[k0 v0] d IH]; simpl; [tauto|].
  destruct (eqb_spec k0 k) as [->|ne].
  - split; [discriminate | intros H; elim H; now left].
  - rewrite IH. split; intros H; [intros [e|i]; auto | tauto].
Qed.

Lemma dict_get_in d k v : dict_get eqb d k = Some v -> In k (dict_keys d).
Proof.
  induction d as [|[k0 v0] d IH]; simpl; [discriminate|].
  destruct (eqb_spec k0 k) as [->|ne]; auto.
Qed.

Lemma dict_get_in_pair d k v : dict_get eqb d k = Some v -> In (k, v) d.
Proof.
  induction d as [|[k0 v0] d IH]; simpl; [discriminate|].
  destruct (eqb_spec k0 k) as [->|ne]; [intros [= ->]; now left | auto].
Qed.

Lemma dict_set_present d k v v0 :
  dict_get eqb d k = Some v0 -> dict_keys (dict_set eqb d k v) = dict_keys d.
Proof.
  induction d as [|[k0 w] d IH]; simpl; [discriminate|].
  destruct (eqb_spec k0 k) as [->|ne]; simpl; [reflexivity|].
  intros H. now rewrite IH.
Qed.

Lemma dict_set_absent d k v :
  dict_get eqb d k = None -> dict_set eqb d k v = (d ++ [(k, v)])%list.
Proof.
  induction d as [|[k0 w] d IH]; simpl; [reflexivity|].
  destruct (eqb_spec k0 k) as [->|ne]; [discriminate|].
  intros H. now rewrite IH.
Qed.

Lemma dict_set_wf d k v : dict_wf d -> dict_wf (dict_set eqb d k v).
Proof.
  unfold dict_wf. intros Hwf.
  destruct (dict_get eqb d k) as [v0|] eqn:E.
  - now rewrite (dict_set_present _ _ _ _ E).
  - rewrite (dict_set_absent _ _ _ E). unfold dict_keys.
    rewrite map_app. simpl.
    apply NoDup_app; [exact Hwf | repeat constructor; intros [] | ].
    intros x Hx [<-|[]]. apply dict_get_none in E. contradiction.
Qed.

Lemma dict_del_keys_incl d k k' :
  In k' (dict_keys (dict_del eqb d k)) -> In k' (dict_keys d).
Proof.
  induction d as [|[k0 w] d IH]; simpl; [tauto|].
  destruct (eqb_spec k0 k) as [->|ne]; simpl; [tauto|].
  intros [e|i]; auto.
Qed.

Lemma dict_del_wf d k : dict_wf d -> dict_wf (dict_del eqb d k).
Proof.
  unfold dict_wf. induction d as [|[k0 w] d IH]; simpl; [trivial|].
  intros Hwf. inversion Hwf as [|? ? Hni Hnd]; subst.
  destruct (eqb_spec k0 k) as [->|ne]; [exact Hnd|].
  simpl. constructor; [|now apply IH].
  intros Hin. apply Hni. now apply dict_del_keys_incl in Hin.
Qed.

Lemma dict_get_del_ne d k k' :
  k' <> k -> dict_get eqb (dict_del eqb d k) k' = dict_get eqb d k'.
Proof.
  intros ne. induction d as [|[k0 w] d IH]; simpl; [reflexivity|].
  destruct (eqb_spec k0 k) as [->|ne0]; simpl.
  - destruct (eqb_spec k k'); congruence.
  - now rewrite IH.
Qed.

Lemma dict_get_del_eq d k : dict_wf d -> dict_get eqb (dict_del eqb d k) k = None.
Proof.
  unfold dict_wf. induction d as [|[k0 w] d IH]; simpl; [trivial|].
  intros Hwf. inversion Hwf as [|? ? Hni Hnd]; subst.
  destruct (eqb_spec k0 k) as [->|ne]; simpl.
  - now apply dict_get_none.
  - destruct (eqb_spec k0 k); [contradiction | now apply IH].
Qed.
End DictFacts.

#[local] Hint Resolve String.eqb_spec : core.

Lemma value_eqb_spec (a b : value) : reflect (a = b) (value_eqb a b).
Proof.
  destruct a as [|x|x], b as [|y|y]; simpl;
    try (constructor; congruence).
  - destruct (Z.eqb_spec x y); constructor; congruence.
  - destruct (String.eqb_spec x y); constructor; congruence.
Qed.

(** ** update_student and delete_student *)

Lemma is_valid_field_spec (f : string) :
  is_valid_field f = true <-> In f valid_fields.
Proof.
  unfold is_valid_field. rewrite existsb_exists. split.
  - intros (x & Hin & Heq). apply String.eqb_eq in Heq. now subst.
  - intros Hin. exists f. split; [exact Hin | apply String.eqb_refl].
Qed.

Lemma apply_field_other (r : record) (kv : string * value) (f : string) :
  f <> fst kv \/ effective kv = false ->
  rget (apply_field r kv) f = rget r f.
Proof.
  destruct kv as [field v]. unfold apply_field, effective. simpl.
  intros [ne|ineff].
  - destruct (is_valid_field field && negb (is_none v)); [|reflexivity].
    now apply dict_get_set_ne.
  - now rewrite ineff.
Qed.

(** A field that no effective assignment names keeps its value. *)
Lemma fold_apply_field_other (kwargs : list (string * value)) (r : record) (f : string) :
  ~ In f (map fst (filter effective kwargs)) ->
  rget (fold_left apply_field kwargs r) f = rget r f.
Proof.
  revert r. induction kwargs as [|kv kwargs IH]; simpl; intros r Hni; [reflexivity|].
  rewrite IH.
  - apply apply_field_other.
    destruct (effective kv) eqn:E; [left | now right].
    intros ->. apply Hni. simpl. now left.
  - intros Hin. apply Hni. destruct (effective kv); simpl; auto.
Qed.

Lemma fold_apply_field_filter (kwargs : list (string * value)) (r : record) :
  fold_left apply_field kwargs r = fold_left apply_field (filter effective kwargs) r.
Proof.
  revert r. induction kwargs as [|[field v] kwargs IH]; simpl; intros r; [reflexivity|].
  unfold effective at 1. simpl.
  destruct (is_valid_field field && negb (is_none v)) eqn:E; simpl.
  - rewrite E. apply IH.
  - apply IH.
Qed.

Lemma not_valid_not_assigned (kwargs : list (string * value)) (f : string) :
  is_valid_field f = false -> ~ In f (map fst (filter effective kwargs)).
Proof.
  intros Hf Hin. apply in_map_iff in Hin as ([k v] & <- & Hin).
  apply filter_In in Hin as [_ He]. unfold effective in He. simpl in *.
  now rewrite Hf in He.
Qed.

(** C3: an update that supplies only a grade leaves name, age, email and
    phone of the record as they were and every other record untouched;
    every successful update sets updated_at to the clock reading and keeps
    created_at; a field supplied as None and a field outside the allow-list
    are ignored. *)
Theorem update_student_frame
  (m : manager) (sid : string) (r : record)
  (kwargs : list (string * value)) (now : string) :
  sget (students m) sid = Some r ->
  exists r',
    fst (update_student m sid kwargs now) = true /\
    sget (students (snd (update_student m sid kwargs now))) sid = Some r' /\
    rget r' "updated_at" = Some (VStr now) /\
    rget r' "created_at" = rget r "created_at" /\
    (only_grade kwargs ->
       rget r' "name" = rget r "name" /\ rget r' "age" = rget r "age" /\
       rget r' "email" = rget r "email" /\ rget r' "phone" = rget r "phone") /\
    (forall g, kwargs = [("grade", g)] -> g <> VNone -> rget r' "grade" = Some g) /\
    (forall other, other <> sid ->
       sget (students (snd (update_student m sid kwargs now))) other =
       sget (students m) other) /\
    dict_keys (students (snd (update_student m sid kwargs now))) =
      dict_keys (students m) /\
    (forall f, f <> "updated_at" ->
       ~ In f (map fst (filter effective kwargs)) -> rget r' f = rget r f) /\
    update_student m sid kwargs now =
      update_student m sid (filter effective kwargs) now.
Proof.
  intros Hget. unfold update_student. rewrite Hget. cbn [fst snd students].
  set (r1 := fold_left apply_field kwargs r).
  assert (Hframe : forall f, f <> "updated_at" ->
            ~ In f (map fst (filter effective kwargs)) ->
            rget (rset r1 "updated_at" (VStr now)) f = rget r f).
  { intros f Hf Hni. unfold rget, rset.
    rewrite dict_get_set_ne by auto.
    now apply fold_apply_field_other. }
  exists (rset r1 "updated_at" (VStr now)).
  split; [reflexivity|].
  split; [apply dict_get_set_eq; auto|].
  split; [apply dict_get_set_eq; auto|].
  split.
  { apply Hframe; [discriminate|].
    now apply not_valid_not_assigned. }
  split.
  { intros Honly.
    assert (Hn : forall f, f <> "grade" ->
              ~ In f (map fst (filter effective kwargs))).
    { intros f Hf Hin. apply in_map_iff in Hin as ([k v] & <- & Hin).
      apply filter_In in Hin as [Hin He].
      unfold only_grade in Honly. rewrite Forall_forall in Honly.
      destruct (Honly _ Hin) as [Hk|Hv]; cbn [fst snd] in *.
      - now apply Hf.
      - subst v. unfold effective in He. cbn in He.
        now rewrite andb_false_r in He. }
    repeat split; apply Hframe; try discriminate; apply Hn; discriminate. }
  split.
  { intros g -> Hg. subst r1. cbn [fold_left apply_field].
    change (is_valid_field "grade") with true.
    destruct g; [now elim Hg| |]; cbn [is_none negb andb];
      unfold rget, rset; rewrite dict_get_set_ne by (auto; discriminate);
      apply dict_get_set_eq; auto. }
  split.
  { intros other Hne. apply dict_get_set_ne; auto. }
  split.
  { eapply dict_set_present; eauto. }
  split; [exact Hframe|].
  subst r1. now rewrite <- fold_apply_field_filter.
Qed.

Lemma update_student_frame_witness :
  sget (students sample_manager) "STU001" = Some sample_record /\
  only_grade grade_only_kwargs /\
  exists r',
    sget (students (snd (update_student sample_manager "STU001"
                           grade_only_kwargs "2024-02-02 09:30:00"))) "STU001"
      = Some r' /\
    rget r' "updated_at" = Some (VStr "2024-02-02 09:30:00") /\
    rget r' "created_at" = Some (VStr "2024-01-01 10:00:00") /\
    rget r' "name" = Some (VStr "Alice").
Proof.
  assert (Honly : only_grade grade_only_kwargs).
  { unfold only_grade, grade_only_kwargs.
    repeat (apply Forall_cons; [cbn [fst snd]; auto|]). apply Forall_nil. }
  destruct (update_student_frame sample_manager "STU001" sample_record
              grade_only_kwargs "2024-02-02 09:30:00" eq_refl)
    as (r' & _ & H2 & H3 & H4 & H5 & _).
  split; [reflexivity|]. split; [exact Honly|].
  exists r'. split; [exact H2|]. split; [exact H3|].
  split; [rewrite H4; reflexivity|].
  destruct (H5 Honly) as [Hn _]. rewrite Hn. reflexivity.
Defined.

(** C4: for an identifier that is not in the store, update_student and
    delete_student return False and leave the manager, mapping and file,
    exactly as it was. *)
Theorem not_found_leaves_state
  (m : manager) (sid : string) (kwargs : list (string * value)) (now : string) :
  sget (students m) sid = None ->
  update_student m sid kwargs now = (false, m) /\
  delete_student m sid = (false, m).
Proof.
  intros Hget. unfold update_student, delete_student, dict_mem.
  unfold sget in *. now rewrite Hget.
Qed.

Lemma not_found_leaves_state_witness :
  sget (students sample_manager) "STU999" = None /\
  update_student sample_manager "STU999" [("grade", VStr "B")] "2024-02-02 09:30:00"
    = (false, sample_manager) /\
  delete_student sample_manager "STU999" = (false, sample_manager).
Proof.
  split; [reflexivity|].
  apply (not_found_leaves_state sample_manager "STU999"); reflexivity.
Defined.

(** ** search_students *)

Lemma prefix_refl (s : string) : String.prefix s s = true.
Proof.
  induction s as [|c s IH]; simpl; [reflexivity|].
  destruct (ascii_dec c c) as [_|ne]; [exact IH | now elim ne].
Qed.

Lemma contains_refl (s : string) : PyStr.contains s s = true.
Proof.
  destruct s as [|c s]; [reflexivity|].
  cbn [PyStr.contains]. now rewrite prefix_refl.
Qed.

Lemma record_matches_app (student : record) (cs1 cs2 : list (string * value)) :
  record_matches student (cs1 ++ cs2)%list =
  record_matches student cs1 && record_matches student cs2.
Proof.
  induction cs1 as [|[key v] cs1 IH]; simpl; [reflexivity|].
  destruct (rget student key) as [field|]; [|exact IH].
  destruct (truthy v); [|exact IH].
  destruct (match v with VStr sv => _ | _ => false end); [reflexivity|].
  destruct (value_eqb field v); simpl; [exact IH | reflexivity].
Qed.

Lemma record_matches_falsy (student : record) (key : string) (v : value) :
  truthy v = false -> record_matches student [(key, v)] = true.
Proof.
  intros Hv. simpl. rewrite Hv. now destruct (rget student key).
Qed.

(** What the code does with one string criterion: it lets a record pass
    only when the field is that very string. *)
Lemma string_criterion_exact (student : record) (key sv : string) (field : value) :
  rget student key = Some field -> sv <> "" ->
  record_matches student [(key, VStr sv)] = value_eqb field (VStr sv).
Proof.
  intros Hget Hne. simpl. rewrite Hget.
  destruct (String.eqb_spec sv ""); [contradiction|]. simpl.
  destruct (value_eqb_spec field (VStr sv)) as [->|Hdiff]; simpl.
  - now rewrite contains_refl.
  - now destruct (PyStr.contains _ _).
Qed.

(** C1: a string criterion is meant to match by case-insensitive substring
    containment.  On the record named Alice the criterion name=ali is
    contained that way, and search_students still returns nothing: the
    equality test of the elif branch runs after a successful containment
    test. *)
Theorem search_substring_criterion_rejected :
  rget sample_record "name" = Some (VStr "Alice") /\
  PyStr.contains (PyStr.lower (py_str (VStr "Alice"))) (PyStr.lower "ali") = true /\
  search_students sample_manager [("name", VStr "ali")] = [] /\
  search_students sample_manager [("name", VStr "alice")] = [] /\
  search_students sample_manager [("name", VStr "Alice")] = [sample_record].
Proof. repeat split. Qed.

Lemma record_matches_in (student : record) (cs : list (string * value))
  (key : string) (v field : value) :
  record_matches student cs = true -> In (key, v) cs -> truthy v = true ->
  rget student key = Some field ->
  value_eqb field v = true /\ spec_criterion_matches student key v = true.
Proof.
  induction cs as [|[key0 v0] cs IH]; cbn [record_matches In]; [tauto|].
  intros Hm [[= -> ->]|Hin] Hv Hget.
  - rewrite Hget, Hv in Hm. unfold spec_criterion_matches. rewrite Hget.
    destruct v as [|z|sv].
    + discriminate.
    + cbn [blank]. cbn [negb] in Hm.
      destruct (value_eqb field (VInt z)); [split; reflexivity|discriminate].
    + destruct (PyStr.contains _ _) eqn:Hc; [|discriminate]. cbn [negb] in Hm.
      destruct (value_eqb field (VStr sv)) eqn:He; [|discriminate].
      split; [reflexivity|]. destruct sv; [discriminate|]. cbn [blank]. reflexivity.
  - apply IH; auto.
    destruct (rget student key0); [|exact Hm].
    destruct (truthy v0); [|exact Hm].
    destruct (match v0 with VStr sv => _ | _ => false end); [discriminate|].
    destruct (value_eqb _ v0); [exact Hm|discriminate].
Qed.

(** C7: on the record named Alice with grade A, the criteria name=ali and
    grade=a both match by the rule of the specification, and the search
    with the two of them returns nothing, where the record is expected:
    the equality test on the elif branch rejects it (the defect of C1).
    What the search does return matches every criterion it was given, and
    a criterion whose value is None or the empty string changes nothing:
    the result list is the one of the search without it. *)
Theorem search_two_criteria_drops_match :
  (get_all_students sample_manager = [sample_record] /\
   spec_criterion_matches sample_record "name" (VStr "ali") = true /\
   spec_criterion_matches sample_record "grade" (VStr "a") = true /\
   search_students sample_manager [("name", VStr "ali"); ("grade", VStr "a")] = [] /\
   search_students sample_manager [("name", VStr "Alice"); ("grade", VStr "A")] =
     [sample_record]) /\
  (forall (m : manager) cs student key v field,
     In student (search_students m cs) -> In (key, v) cs -> truthy v = true ->
     rget student key = Some field ->
     spec_criterion_matches student key v = true) /\
  (forall (m : manager) cs1 cs2 key v,
     blank v = true ->
     search_students m (cs1 ++ (key, v) :: cs2)%list =
     search_students m (cs1 ++ cs2)%list).
Proof.
  split; [repeat split|split].
  - intros m cs student key v field Hin Hc Hv Hget.
    unfold search_students in Hin. apply filter_In in Hin.
    destruct Hin as [_ Hm].
    exact (proj2 (record_matches_in _ _ _ _ _ Hm Hc Hv Hget)).
  - intros m cs1 cs2 key v Hv. unfold search_students.
    apply filter_ext. intros student.
    change ((key, v) :: cs2) with ([(key, v)] ++ cs2)%list.
    rewrite !record_matches_app, record_matches_falsy; [reflexivity|].
    destruct v as [|z|[|c sv]]; try discriminate; reflexivity.
Qed.

Lemma search_two_criteria_drops_match_witness :
  In sample_record
     (search_students sample_manager [("name", VStr "Alice"); ("grade", VStr "A")]) /\
  spec_criterion_matches sample_record "grade" (VStr "A") = true /\
  search_students sample_manager [("name", VStr "Alice"); ("email", VNone)] =
  search_students sample_manager [("name", VStr "Alice")].
Proof.
  split; [left; reflexivity|]. split.
  - apply (proj1 (proj2 search_two_criteria_drops_match) sample_manager
             [("name", VStr "Alice"); ("grade", VStr "A")] sample_record
             "grade" (VStr "A") (VStr "A")).
    + left; reflexivity.
    + right; left; reflexivity.
    + reflexivity.
    + reflexivity.
  - exact (proj2 (proj2 search_two_criteria_drops_match) sample_manager
             [("name", VStr "Alice")] [] "email" VNone eq_refl).
Defined.

(** ** generate_id *)

Lemma suffix_of_generated (n : Z) :
  suffix_of ("STU" ++ PyStr.format_03d n) = Some n.
Proof.
  unfold suffix_of, PyStr.startswith.
  rewrite prefix_append.
  change 3%nat with (String.length "STU").
  rewrite slice_from_append. apply DecimalLemmas.py_int_format_03d.
Qed.

Lemma suffix_ids_in (keys : list string) (ids : list Z) :
  suffix_ids keys = Some ids ->
  forall k j, In k keys -> suffix_of k = Some j -> In j ids.
Proof.
  revert ids. induction keys as [|sid keys IH]; cbn [suffix_ids In];
    intros ids H k j Hin Hk.
  - contradiction.
  - unfold suffix_of in *.
    destruct (PyStr.startswith sid "STU") eqn:Hp.
    + destruct (PyStr.py_int (PyStr.slice_from 3 sid)) as [n|] eqn:Hn; [|discriminate].
      destruct (suffix_ids keys) as [ids'|]; [|discriminate].
      simpl in H. injection H as <-. destruct Hin as [->|Hin].
      * rewrite Hp, Hn in Hk. injection Hk as <-. now left.
      * right. eapply IH; eauto.
    + destruct Hin as [->|Hin].
      * rewrite Hp in Hk. discriminate.
      * eapply IH; eauto.
Qed.

Lemma suffix_ids_some_iff (keys : list string) :
  suffix_ids keys <> None <->
  (forall k, In k keys -> PyStr.startswith k "STU" = true ->
             PyStr.py_int (PyStr.slice_from 3 k) <> None).
Proof.
  induction keys as [|sid keys IH]; cbn [suffix_ids In].
  - split; [intros _ k [] | discriminate].
  - destruct (PyStr.startswith sid "STU") eqn:Hp.
    + destruct (PyStr.py_int (PyStr.slice_from 3 sid)) as [n|] eqn:Hn.
      * split.
        -- intros H k [<-|Hin] Hk; [congruence|].
           apply IH; auto. destruct (suffix_ids keys); [discriminate | now elim H].
        -- intros H.
           assert (Hs : suffix_ids keys <> None) by (apply IH; auto).
           destruct (suffix_ids keys); [discriminate | now elim Hs].
      * split; [intros H; now elim H|].
        intros H _. now apply (H sid (or_introl eq_refl) Hp).
    + rewrite IH. split.
      * intros H k [<-|Hin] Hk; [congruence | auto].
      * auto.
Qed.

Lemma py_max_ge (rest : list Z) (i : Z) :
  i <= py_max i rest /\ forall j, In j rest -> j <= py_max i rest.
Proof.
  unfold py_max. revert i. induction rest as [|x rest IH]; simpl; intros i.
  - split; [lia | intros j []].
  - destruct (IH (Z.max i x)) as [H1 H2]. split; [lia|].
    intros j [<-|Hin]; [lia | auto].
Qed.

Lemma py_max_in (rest : list Z) (i : Z) : In (py_max i rest) (i :: rest).
Proof.
  unfold py_max. revert i. induction rest as [|x rest IH]; simpl; intros i.
  - now left.
  - destruct (IH (Z.max i x)) as [H|H].
    + rewrite <- H. destruct (Z.max_spec i x) as [[_ ->]|[_ ->]]; auto.
    + auto.
Qed.

(** The identifier [generate_id] returns, by cases on the suffixes read *)
Lemma generate_id_eq (s : store) :
  generate_id s =
  match s with
  | [] => Some ("STU" ++ PyStr.format_03d 1)
  | _ =>
      match suffix_ids (dict_keys s) with
      | Some (i :: rest) => Some ("STU" ++ PyStr.format_03d (py_max i rest + 1))
      | Some [] => Some ("STU" ++ PyStr.format_03d 1)
      | None => None
      end
  end.
Proof.
  destruct s as [|kr s]; [reflexivity|]. unfold generate_id.
  now destruct (suffix_ids (dict_keys (kr :: s))) as [[|i rest]|].
Qed.

(** The generated suffix lies above every suffix in the store, so the
    identifier is not a key of the store. *)
Lemma generate_id_above (s : store) (sid : string) :
  generate_id s = Some sid ->
  exists n, sid = "STU" ++ PyStr.format_03d n /\ suffix_of sid = Some n /\
            (forall k j, In k (dict_keys s) -> suffix_of k = Some j -> j < n).
Proof.
  rewrite generate_id_eq. destruct s as [|kr s].
  - intros [= <-]. exists 1. split; [reflexivity|]. split; [reflexivity|].
    intros k j [].
  - destruct (suffix_ids (dict_keys (kr :: s))) as [[|i rest]|] eqn:E;
      [| |discriminate]; intros [= <-].
    + exists 1. split; [reflexivity|]. split; [reflexivity|].
      intros k j Hin Hk. now pose proof (suffix_ids_in _ _ E k j Hin Hk).
    + exists (py_max i rest + 1). split; [reflexivity|].
      split; [apply suffix_of_generated|].
      intros k j Hin Hk. pose proof (suffix_ids_in _ _ E k j Hin Hk) as Hj.
      destruct (py_max_ge rest i) as [H1 H2].
      destruct Hj as [<-|Hj]; [lia | specialize (H2 j Hj); lia].
Qed.

Lemma generate_id_fresh (s : store) (sid : string) :
  generate_id s = Some sid -> sget s sid = None.
Proof.
  intros H. destruct (generate_id_above s sid H) as (n & _ & Hn & Hlt).
  apply dict_get_none; auto. intros Hin.
  specialize (Hlt sid n Hin Hn). lia.
Qed.

Lemma generate_id_some_iff (s : store) :
  generate_id s <> None <-> suffixes_parse s.
Proof.
  unfold suffixes_parse. rewrite <- suffix_ids_some_iff, generate_id_eq.
  destruct s as [|kr s]; [simpl; split; congruence|].
  destruct (suffix_ids (dict_keys (kr :: s))) as [[|i rest]|];
    split; congruence.
Qed.

(** C10: generate_id, and with it add_student, returns exactly when every
    key with the prefix STU continues with an int literal; the mapping
    load_records reads from a file whose key is STUdent does not meet
    that, and both raise on it. *)
Theorem generate_id_total_iff_suffixes_parse :
  (forall s, generate_id s <> None <-> suffixes_parse s) /\
  (forall m name age grade email phone t1 t2,
     add_student m name age grade email phone t1 t2 <> None <->
     suffixes_parse (students m)) /\
  init (Some stray_key_text) = Returns stray_manager /\
  students stray_manager = [("STUdent", [])] /\
  PyStr.py_int (PyStr.slice_from 3 "STUdent") = None /\
  generate_id (students stray_manager) = None /\
  (forall name age grade email phone t1 t2,
     add_student stray_manager name age grade email phone t1 t2 = None).
Proof.
  split; [exact generate_id_some_iff|].
  split.
  { intros m name age grade email phone t1 t2.
    rewrite <- generate_id_some_iff. unfold add_student.
    destruct (generate_id (students m)); split; congruence. }
  repeat split.
Qed.

(** ** No reuse of a suffix that is present *)

(** C2, as stated, fails.  After two adds, deleting STU002 (the maximum
    suffix) and adding again issues STU002 a second time, so the new suffix
    2 is not above the suffix 2 issued before.  After three adds, deleting
    STU003 and STU002 and adding again issues the suffixes 1, 2, 3, 2: the
    issued suffixes are not non-decreasing, and the gap at 2 is refilled. *)
Lemma deleted_max_suffix_reissued :
  init None = Returns empty_manager /\
  (issued_ids empty_manager reuse_run = ["STU001"; "STU002"; "STU002"] /\
   max_suffix (students (run empty_manager [add_ann; add_bob])) = Some 2 /\
   issued (run empty_manager [add_ann; add_bob; OpDelete "STU002"]) add_cy = Some "STU002" /\
   ~ (forall old a b,
        In old (issued_ids empty_manager [add_ann; add_bob]) ->
        suffix_of old = Some a -> suffix_of "STU002" = Some b -> a < b)) /\
  (map suffix_of (issued_ids empty_manager falling_run) = map Some [1; 2; 3; 2] /\
   ~ Sorted Z.le [1; 2; 3; 2] /\
   sget (students (run empty_manager [add_ann; add_bob; add_cy;
                                    OpDelete "STU003"; OpDelete "STU002"]))
        "STU002" = None /\
   issued (run empty_manager [add_ann; add_bob; add_cy;
                            OpDelete "STU003"; OpDelete "STU002"]) add_cy =
     Some "STU002").
Proof.
  split; [reflexivity|]. split.
  - repeat split.
    intros H. specialize (H "STU002" 2 2). simpl in H.
    assert (2 < 2) by (apply H; auto). lia.
  - repeat split.
    intros H. inversion H as [|? ? H1 _]; subst.
    inversion H1 as [|? ? H2 _]; subst.
    inversion H2 as [|? ? _ H3]; subst.
    inversion H3 as [|? ? Hle]; subst. lia.
Qed.

Lemma add_student_above_present
  (m m' : manager) (name age grade email phone : value) (t1 t2 sid : string) :
  add_student m name age grade email phone t1 t2 = Some (sid, m') ->
  exists n,
    suffix_of sid = Some n /\
    (forall k j, In k (dict_keys (students m)) -> suffix_of k = Some j -> j < n) /\
    sget (students m) sid = None /\
    (forall k, k <> sid -> sget (students m') k = sget (students m) k) /\
    (forall gap j k' j',
       sget (students m) gap = None -> suffix_of gap = Some j ->
       In k' (dict_keys (students m)) -> suffix_of k' = Some j' -> j <= j' ->
       sget (students m') gap = None).
Proof.
  unfold add_student. destruct (generate_id (students m)) as [sid0|] eqn:G;
    [|discriminate].
  intros [= -> <-]. cbn [students save_records].
  destruct (generate_id_above _ _ G) as (n & _ & Hn & Hlt).
  assert (Hother : forall k, k <> sid ->
            sget (sset (students m) sid
                    [("id", VStr sid); ("name", name); ("age", age);
                     ("grade", grade); ("email", email); ("phone", phone);
                     ("created_at", VStr t1); ("updated_at", VStr t2)]) k =
            sget (students m) k).
  { intros k Hk. apply dict_get_set_ne; auto. }
  exists n. split; [exact Hn|]. split; [exact Hlt|].
  split; [now apply generate_id_fresh|]. split; [exact Hother|].
  intros gap j k' j' Hgap Hj Hin Hj' Hle.
  rewrite Hother; [exact Hgap|].
  intros ->. rewrite Hn in Hj. injection Hj as <-.
  specialize (Hlt k' j' Hin Hj'). lia.
Qed.

Lemma update_student_keys (m : manager) (sid : string)
  (kwargs : list (string * value)) (now : string) :
  dict_keys (students (snd (update_student m sid kwargs now))) = dict_keys (students m).
Proof.
  unfold update_student. destruct (sget (students m) sid) as [r|] eqn:E; [|reflexivity].
  cbn [snd students save_records]. eapply dict_set_present; eauto.
Qed.

(** Every suffix in the list that generate_id takes the maximum of is the
    suffix of a key. *)
Lemma suffix_ids_from (keys : list string) (ids : list Z) (j : Z) :
  suffix_ids keys = Some ids -> In j ids ->
  exists k, In k keys /\ suffix_of k = Some j.
Proof.
  revert ids. induction keys as [|sid keys IH]; cbn [suffix_ids]; intros ids H Hj.
  - injection H as <-. contradiction.
  - destruct (PyStr.startswith sid "STU") eqn:Hp.
    + destruct (PyStr.py_int (PyStr.slice_from 3 sid)) as [n|] eqn:Hn; [|discriminate].
      destruct (suffix_ids keys) as [ids'|]; [|discriminate].
      simpl in H. injection H as <-. destruct Hj as [<-|Hj].
      * exists sid. split; [now left|]. unfold suffix_of. now rewrite Hp.
      * destruct (IH ids' eq_refl Hj) as (k & Hk & Hs).
        exists k. split; [now right | exact Hs].
    + destruct (IH ids H Hj) as (k & Hk & Hs).
      exists k. split; [now right | exact Hs].
Qed.

(** A store whose prefixed keys parse and that holds a key with suffix [j]
    has a largest suffix, carried by a key and at least [j]. *)
Lemma max_suffix_carried (s : store) (k : string) (j : Z) :
  suffixes_parse s -> In k (dict_keys s) -> suffix_of k = Some j ->
  exists top k', max_suffix s = Some top /\ j <= top /\
                 In k' (dict_keys s) /\ suffix_of k' = Some top.
Proof.
  intros Hp Hin Hk. unfold max_suffix.
  destruct (suffix_ids (dict_keys s)) as [ids|] eqn:E.
  - pose proof (suffix_ids_in _ _ E k j Hin Hk) as Hj.
    destruct ids as [|i rest]; [contradiction|].
    destruct (suffix_ids_from _ _ _ E (py_max_in rest i)) as (k' & Hk' & Hs').
    exists (py_max i rest), k'. split; [reflexivity|]. split; [|auto].
    destruct (py_max_ge rest i) as [H1 H2].
    destruct Hj as [<-|Hj]; [exact H1 | now apply H2].
  - exfalso. now apply (proj2 (suffix_ids_some_iff (dict_keys s)) Hp).
Qed.

Lemma suffixes_parse_incl (s s' : store) :
  (forall k, In k (dict_keys s') -> In k (dict_keys s)) ->
  suffixes_parse s -> suffixes_parse s'.
Proof. intros Hincl Hp k Hin. apply Hp. now apply Hincl. Qed.

Lemma add_student_keys (m m' : manager) (name age grade email phone : value)
  (t1 t2 sid : string) :
  add_student m name age grade email phone t1 t2 = Some (sid, m') ->
  dict_keys (students m') = (dict_keys (students m) ++ [sid])%list /\
  suffixes_parse (students m').
Proof.
  intros Hadd. pose proof Hadd as Hadd'. unfold add_student in Hadd.
  destruct (generate_id (students m)) as [sid0|] eqn:G; [|discriminate].
  injection Hadd as -> <-. cbn [students save_records].
  assert (Hkeys : dict_keys (sset (students m) sid
                    [("id", VStr sid); ("name", name); ("age", age);
                     ("grade", grade); ("email", email); ("phone", phone);
                     ("created_at", VStr t1); ("updated_at", VStr t2)]) =
                  (dict_keys (students m) ++ [sid])%list).
  { unfold sset.
    rewrite (dict_set_absent String.eqb String.eqb_spec _ _ _ (generate_id_fresh _ _ G)).
    unfold dict_keys. now rewrite map_app. }
  split; [exact Hkeys|].
  assert (Hp : suffixes_parse (students m)).
  { apply generate_id_some_iff. now rewrite G. }
  destruct (generate_id_above _ _ G) as (n & _ & Hn & _).
  intros k Hin Hpre. rewrite Hkeys in Hin. apply in_app_or in Hin.
  destruct Hin as [Hin|[<-|[]]]; [now apply Hp|].
  unfold suffix_of in Hn. rewrite Hpre in Hn. now rewrite Hn.
Qed.

Lemma delete_student_keys (m : manager) (sid k : string) :
  In k (dict_keys (students (snd (delete_student m sid)))) ->
  In k (dict_keys (students m)).
Proof.
  unfold delete_student. destruct (dict_mem String.eqb (students m) sid);
    cbn [snd students save_records]; [|trivial].
  apply (dict_del_keys_incl String.eqb String.eqb_spec).
Qed.

Lemma delete_student_keeps (m : manager) (sid k : string) :
  k <> sid -> In k (dict_keys (students m)) ->
  In k (dict_keys (students (snd (delete_student m sid)))).
Proof.
  intros Hne Hin. unfold delete_student.
  destruct (dict_mem String.eqb (students m) sid);
    cbn [snd students save_records]; [|exact Hin].
  destruct (sget (sdel (students m) sid) k) as [r|] eqn:E.
  - exact (dict_get_in String.eqb String.eqb_spec _ _ _ E).
  - unfold sget, sdel in E.
    rewrite (dict_get_del_ne String.eqb String.eqb_spec _ _ _ Hne) in E.
    now apply (dict_get_none String.eqb String.eqb_spec) in E.
Qed.

(** While no delete removes a record holding the largest suffix, every
    identifier issued later lies above every suffix present now. *)
Lemma issued_above (ops : list op) :
  forall (m : manager) (k : string) (j : Z),
    suffixes_parse (students m) ->
    In k (dict_keys (students m)) -> suffix_of k = Some j ->
    max_kept m ops = true ->
    Forall (fun sid => exists n, suffix_of sid = Some n /\ j < n) (issued_ids m ops).
Proof.
  induction ops as [|o ops IH]; intros m k j Hp Hin Hk Hkept; [constructor|].
  cbn [max_kept] in Hkept. apply andb_prop in Hkept as [Ho Hkept].
  cbn [issued_ids].
  destruct o as [name age grade email phone t1 t2|sid kwargs now|sid];
    cbn [issued step] in *.
  - destruct (add_student m name age grade email phone t1 t2) as [[sid m']|] eqn:Hadd;
      cbn [option_map fst].
    + destruct (add_student_above_present _ _ _ _ _ _ _ _ _ _ Hadd)
        as (n & Hn & Hlt & _).
      destruct (add_student_keys _ _ _ _ _ _ _ _ _ _ Hadd) as [Hkeys Hp'].
      pose proof (Hlt k j Hin Hk) as Hjn.
      constructor; [exists n; split; [exact Hn | exact Hjn]|].
      assert (Hsid : In sid (dict_keys (students m'))).
      { rewrite Hkeys. apply in_or_app. right. now left. }
      eapply Forall_impl; [|exact (IH m' sid n Hp' Hsid Hn Hkept)].
      intros a (n' & Hn' & Hlt'). exists n'. split; [exact Hn' | lia].
    + now apply (IH m k j).
  - apply (IH _ k j); auto.
    + eapply suffixes_parse_incl; [|exact Hp].
      intros k0. now rewrite update_student_keys.
    + now rewrite update_student_keys.
  - assert (Hp' : suffixes_parse (students (snd (delete_student m sid)))).
    { eapply suffixes_parse_incl; [|exact Hp]. intros k0. apply delete_student_keys. }
    destruct (String.eqb_spec k sid) as [->|Hne].
    + destruct (dict_mem String.eqb (students m) sid) eqn:Hmem.
      * destruct (max_suffix_carried _ _ _ Hp Hin Hk)
          as (top & k' & Htop & Hle & Hin' & Hk').
        unfold removes_max in Ho. rewrite Hmem, Hk, Htop in Ho. cbn [andb negb] in Ho.
        apply negb_true_iff, Z.eqb_neq in Ho.
        assert (Hne : k' <> sid).
        { intros ->. rewrite Hk in Hk'. injection Hk' as <-. now apply Ho. }
        eapply Forall_impl;
          [|exact (IH _ k' top Hp' (delete_student_keeps _ _ _ Hne Hin') Hk' Hkept)].
        intros a (n' & Hn' & Hlt'). exists n'. split; [exact Hn' | lia].
      * apply (IH _ sid j); auto.
        unfold delete_student. now rewrite Hmem.
    + apply (IH _ k j); auto. now apply delete_student_keeps.
Qed.

Lemma above_suffixes (j : Z) (ids : list string) :
  Forall (fun sid => exists n, suffix_of sid = Some n /\ j < n) ids ->
  forall l, map suffix_of ids = map Some l -> Forall (Z.lt j) l.
Proof.
  induction 1 as [|sid ids (n & Hn & Hlt) _ IH]; intros [|x l] Hmap;
    try discriminate; constructor.
  - cbn [map] in Hmap. rewrite Hn in Hmap. injection Hmap as <- _. exact Hlt.
  - apply IH. cbn [map] in Hmap. now injection Hmap.
Qed.

(** C2, amended: the suffix generated for a new record is above every
    suffix present in the store at that moment, so the new identifier is
    not in use and the add touches no present record, and a key that is
    absent while a present key carries a suffix at least as large stays
    absent; along a run in which no delete removes a record holding the
    largest suffix present, the issued suffixes are strictly increasing. *)
Theorem generated_suffix_above_present :
  (forall (m m' : manager) (name age grade email phone : value) (t1 t2 sid : string),
     add_student m name age grade email phone t1 t2 = Some (sid, m') ->
     exists n,
       suffix_of sid = Some n /\
       (forall k j, In k (dict_keys (students m)) -> suffix_of k = Some j -> j < n) /\
       sget (students m) sid = None /\
       (forall k, k <> sid -> sget (students m') k = sget (students m) k) /\
       (forall gap j k' j',
          sget (students m) gap = None -> suffix_of gap = Some j ->
          In k' (dict_keys (students m)) -> suffix_of k' = Some j' -> j <= j' ->
          sget (students m') gap = None)) /\
  (forall (m : manager) (ops : list op),
     max_kept m ops = true ->
     exists l, map suffix_of (issued_ids m ops) = map Some l /\
               StronglySorted Z.lt l).
Proof.
  split; [exact add_student_above_present|].
  intros m ops. revert m. induction ops as [|o ops IH]; intros m Hkept.
  - exists []. split; [reflexivity | constructor].
  - pose proof Hkept as Hall.
    cbn [max_kept] in Hkept. apply andb_prop in Hkept as [_ Hkept].
    destruct (IH _ Hkept) as (l & Hmap & Hsorted).
    cbn [issued_ids]. destruct (issued m o) as [sid|] eqn:Hi.
    + destruct o as [name age grade email phone t1 t2|? ? ?|?];
        cbn [issued] in Hi; try discriminate.
      cbn [step] in *.
      destruct (add_student m name age grade email phone t1 t2) as [[sid0 m']|] eqn:Hadd;
        [|discriminate].
      cbn [option_map fst] in Hi. injection Hi as ->.
      destruct (add_student_above_present _ _ _ _ _ _ _ _ _ _ Hadd) as (n & Hn & _).
      destruct (add_student_keys _ _ _ _ _ _ _ _ _ _ Hadd) as [Hkeys Hp'].
      assert (Hsid : In sid (dict_keys (students m'))).
      { rewrite Hkeys. apply in_or_app. right. now left. }
      exists (n :: l). split; [cbn [map]; now rewrite Hn, Hmap|].
      constructor; [exact Hsorted|].
      exact (above_suffixes _ _ (issued_above ops m' sid n Hp' Hsid Hn Hkept) l Hmap).
    + exists l. split; [exact Hmap | exact Hsorted].
Qed.

Lemma generated_suffix_above_present_witness :
  (option_map fst
     (add_student sample_manager (VStr "Bob") (VInt 13) (VStr "B") VNone VNone
        "2024-01-02 10:00:00" "2024-01-02 10:00:00") = Some "STU002" /\
   exists n, suffix_of "STU002" = Some n /\
             sget (students sample_manager) "STU002" = None) /\
  (max_kept sample_manager [add_bob; OpDelete "STU001"; add_cy] = true /\
   issued_ids sample_manager [add_bob; OpDelete "STU001"; add_cy] =
     ["STU002"; "STU003"] /\
   exists l, map suffix_of (issued_ids sample_manager
                              [add_bob; OpDelete "STU001"; add_cy]) = map Some l /\
             StronglySorted Z.lt l).
Proof.
  split.
  - split; [reflexivity|].
    destruct (proj1 generated_suffix_above_present sample_manager _
                (VStr "Bob") (VInt 13) (VStr "B") VNone VNone
                "2024-01-02 10:00:00" "2024-01-02 10:00:00" "STU002" eq_refl)
      as (n & Hn & _ & Hfresh & _).
    exists n. split; assumption.
  - split; [reflexivity|]. split; [reflexivity|].
    exact (proj2 generated_suffix_above_present sample_manager
             [add_bob; OpDelete "STU001"; add_cy] eq_refl).
Defined.

(** ** Adding to an empty store *)

Lemma nth_id_parts (i : nat) :
  PyStr.startswith (nth_id i) "STU" = true /\
  PyStr.py_int (PyStr.slice_from 3 (nth_id i)) = Some (Z.of_nat i).
Proof.
  unfold nth_id, PyStr.startswith. split.
  - apply prefix_append.
  - change 3%nat with (String.length "STU").
    rewrite slice_from_append. apply DecimalLemmas.py_int_format_03d.
Qed.

Lemma suffix_ids_nth (l : list nat) :
  suffix_ids (map nth_id l) = Some (map Z.of_nat l).
Proof.
  induction l as [|i l IH]; cbn [map suffix_ids]; [reflexivity|].
  destruct (nth_id_parts i) as [-> ->]. now rewrite IH.
Qed.

Lemma py_max_upto (n : nat) :
  match map Z.of_nat (seq 1 (S n)) with
  | i :: rest => py_max i rest = Z.of_nat (S n)
  | [] => False
  end.
Proof.
  destruct (map Z.of_nat (seq 1 (S n))) as [|i rest] eqn:E; [discriminate|].
  assert (Hmem : forall j, In j (i :: rest) -> 1 <= j <= Z.of_nat (S n)).
  { intros j Hj. rewrite <- E in Hj. apply in_map_iff in Hj as (x & <- & Hx).
    apply in_seq in Hx. lia. }
  assert (Hn : In (Z.of_nat (S n)) (i :: rest)).
  { rewrite <- E. apply in_map. apply in_seq. lia. }
  pose proof (py_max_in rest i) as Hin. apply Hmem in Hin.
  destruct (py_max_ge rest i) as [H1 H2].
  destruct Hn as [Hn|Hn]; [lia | specialize (H2 _ Hn); lia].
Qed.

Lemma generate_id_upto (s : store) (n : nat) :
  dict_keys s = map nth_id (seq 1 n) -> generate_id s = Some (nth_id (S n)).
Proof.
  intros Hk. rewrite generate_id_eq. destruct s as [|kr s].
  - destruct n; [reflexivity | discriminate].
  - rewrite Hk, suffix_ids_nth. destruct n as [|n]; [discriminate|].
    pose proof (py_max_upto n) as Hm.
    destruct (map Z.of_nat (seq 1 (S n))) as [|i rest]; [contradiction|].
    rewrite Hm. unfold nth_id. do 3 f_equal. lia.
Qed.

Lemma add_student_upto (m : manager) (n : nat)
  (name age grade email phone : value) (t1 t2 : string) :
  dict_keys (students m) = map nth_id (seq 1 n) ->
  exists m', add_student m name age grade email phone t1 t2 = Some (nth_id (S n), m') /\
             dict_keys (students m') = map nth_id (seq 1 (S n)).
Proof.
  intros Hk. unfold add_student.
  pose proof (generate_id_upto _ _ Hk) as G. rewrite G.
  eexists. split; [reflexivity|]. cbn [students save_records].
  unfold sset.
  rewrite (dict_set_absent String.eqb String.eqb_spec _ _ _ (generate_id_fresh _ _ G)).
  unfold dict_keys in *. rewrite map_app, Hk, seq_S, map_app. reflexivity.
Qed.

Lemma run_no_delete_keys (ops : list op) (m : manager) (n : nat) :
  no_delete ops = true ->
  dict_keys (students m) = map nth_id (seq 1 n) ->
  dict_keys (students (run m ops)) = map nth_id (seq 1 (n + count_adds ops)).
Proof.
  unfold no_delete, count_adds.
  revert m n. induction ops as [|o ops IH]; intros m n Hnd Hk.
  - simpl. now rewrite Nat.add_0_r.
  - cbn [forallb] in Hnd. apply andb_prop in Hnd as [Ho Hops].
    unfold run in *. cbn [fold_left filter].
    destruct o as [name age grade email phone t1 t2|sid kwargs now|sid];
      try discriminate; cbn [is_add step].
    + destruct (add_student_upto m n name age grade email phone t1 t2 Hk)
        as (m' & Hadd & Hk').
      rewrite Hadd, (IH m' (S n) Hops Hk'). cbn [List.length].
      now replace (n + S (List.length (filter is_add ops)))%nat
        with (S n + List.length (filter is_add ops))%nat by lia.
    + apply (IH _ n Hops). now rewrite update_student_keys.
Qed.

(** C6: the first identifier of an empty store carries suffix 1; in a store
    with prefixed keys the new suffix is one above their maximum; a run
    without a delete that adds N records to an empty store leaves the
    suffixes 1 to N, with maximum N. *)
Theorem generate_id_max_plus_one :
  (generate_id [] = Some "STU001" /\ suffix_of "STU001" = Some 1) /\
  (forall s i rest,
     s <> [] -> suffix_ids (dict_keys s) = Some (i :: rest) ->
     exists sid,
       generate_id s = Some sid /\
       suffix_of sid = Some (py_max i rest + 1) /\
       max_suffix s = Some (py_max i rest) /\
       In (py_max i rest) (i :: rest) /\
       (forall j, In j (i :: rest) -> j <= py_max i rest)) /\
  (forall m0 ops,
     students m0 = [] -> no_delete ops = true -> (0 < count_adds ops)%nat ->
     dict_keys (students (run m0 ops)) = map nth_id (seq 1 (count_adds ops)) /\
     max_suffix (students (run m0 ops)) = Some (Z.of_nat (count_adds ops))).
Proof.
  split; [split; reflexivity|]. split.
  - intros s i rest Hne E.
    exists ("STU" ++ PyStr.format_03d (py_max i rest + 1)).
    split.
    { rewrite generate_id_eq. destruct s; [now elim Hne|]. now rewrite E. }
    split; [apply suffix_of_generated|].
    split; [unfold max_suffix; now rewrite E|].
    split; [apply py_max_in|].
    destruct (py_max_ge rest i) as [H1 H2].
    intros j [<-|Hj]; auto.
  - intros m0 ops Hempty Hnd Hpos.
    assert (Hk : dict_keys (students (run m0 ops)) =
                 map nth_id (seq 1 (count_adds ops))).
    { apply (run_no_delete_keys ops m0 0 Hnd). now rewrite Hempty. }
    split; [exact Hk|].
    unfold max_suffix. rewrite Hk, suffix_ids_nth.
    destruct (count_adds ops) as [|n]; [lia|].
    pose proof (py_max_upto n) as Hm.
    destruct (map Z.of_nat (seq 1 (S n))); [contradiction|].
    now rewrite Hm.
Qed.

Lemma generate_id_max_plus_one_witness :
  init None = Returns empty_manager /\
  students empty_manager = [] /\
  no_delete [add_ann; OpUpdate "STU001" [("grade", VStr "B")] "2024-01-01 11:00:00";
             add_bob; add_cy] = true /\
  max_suffix (students (run empty_manager
    [add_ann; OpUpdate "STU001" [("grade", VStr "B")] "2024-01-01 11:00:00";
     add_bob; add_cy])) = Some 3.
Proof.
  split; [reflexivity|]. split; [reflexivity|]. split; [reflexivity|].
  destruct generate_id_max_plus_one as (_ & _ & H).
  destruct (H empty_manager
              [add_ann; OpUpdate "STU001" [("grade", VStr "B")] "2024-01-01 11:00:00";
               add_bob; add_cy] eq_refl eq_refl) as [_ Hmax].
  - cbn. lia.
  - exact Hmax.
Defined.

(** ** Identifiers and keys *)

Lemma update_keeps_id (r : record) (kwargs : list (string * value)) (now : string) :
  rget (rset (fold_left apply_field kwargs r) "updated_at" (VStr now)) "id" = rget r "id".
Proof.
  unfold rget, rset. rewrite dict_get_set_ne by (auto; discriminate).
  apply fold_apply_field_other. now apply not_valid_not_assigned.
Qed.

Lemma step_wf (m : manager) (o : op) :
  dict_wf (students m) -> dict_wf (students (step m o)).
Proof.
  intros Hwf. destruct o as [name age grade email phone t1 t2|sid kwargs now|sid];
    cbn [step].
  - unfold add_student. destruct (generate_id (students m)); [|exact Hwf].
    cbn [students save_records]. now apply dict_set_wf.
  - unfold update_student. destruct (sget (students m) sid); [|exact Hwf].
    cbn [snd students save_records]. now apply dict_set_wf.
  - unfold delete_student. destruct (dict_mem String.eqb (students m) sid);
      [|exact Hwf].
    cbn [snd students save_records]. now apply dict_del_wf.
Qed.

(** A call changes the ['id'] field of no record that it leaves in place. *)
Lemma step_keeps_id (m : manager) (o : op) (k : string) (r r' : record) :
  dict_wf (students m) ->
  sget (students m) k = Some r -> sget (students (step m o)) k = Some r' ->
  rget r' "id" = rget r "id".
Proof.
  intros Hwf Hr Hr'.
  destruct o as [name age grade email phone t1 t2|sid kwargs now|sid];
    cbn [step] in Hr'.
  - unfold add_student in Hr'.
    destruct (generate_id (students m)) as [sid|] eqn:G; [|congruence].
    cbn [students save_records] in Hr'.
    pose proof (generate_id_fresh _ _ G) as Hfresh.
    destruct (String.eqb_spec k sid) as [->|ne]; [congruence|].
    unfold sget, sset in *. rewrite dict_get_set_ne in Hr' by auto. congruence.
  - unfold update_student in Hr'.
    destruct (sget (students m) sid) as [r0|] eqn:E; [|cbn in Hr'; congruence].
    cbn [snd students save_records] in Hr'.
    destruct (String.eqb_spec k sid) as [->|ne].
    + unfold sget, sset in *. rewrite dict_get_set_eq in Hr' by auto.
      injection Hr' as <-. rewrite update_keeps_id. congruence.
    + unfold sget, sset in *. rewrite dict_get_set_ne in Hr' by auto. congruence.
  - unfold delete_student in Hr'.
    destruct (dict_mem String.eqb (students m) sid); [|cbn in Hr'; congruence].
    cbn [snd students save_records] in Hr'.
    destruct (String.eqb_spec k sid) as [->|ne].
    + unfold sget, sdel in *. rewrite dict_get_del_eq in Hr' by auto. discriminate.
    + unfold sget, sdel in *. rewrite dict_get_del_ne in Hr' by auto. congruence.
Qed.

Lemma step_key_consistent (m : manager) (o : op) :
  dict_wf (students m) -> key_consistent (students m) ->
  key_consistent (students (step m o)).
Proof.
  intros Hwf Hkc k r' Hr'.
  destruct (sget (students m) k) as [r|] eqn:Hr.
  - rewrite (step_keeps_id m o k r r' Hwf Hr Hr'). now apply Hkc.
  - destruct o as [name age grade email phone t1 t2|sid kwargs now|sid];
      cbn [step] in Hr'.
    + unfold add_student in Hr'.
      destruct (generate_id (students m)) as [sid|]; [|congruence].
      cbn [students save_records] in Hr'.
      destruct (String.eqb_spec k sid) as [->|ne].
      * unfold sget, sset in *. rewrite dict_get_set_eq in Hr' by auto.
        injection Hr' as <-. reflexivity.
      * unfold sget, sset in *. rewrite dict_get_set_ne in Hr' by auto. congruence.
    + unfold update_student in Hr'.
      destruct (sget (students m) sid) as [r0|] eqn:E; [|cbn in Hr'; congruence].
      cbn [snd students save_records] in Hr'.
      destruct (String.eqb_spec k sid) as [->|ne]; [congruence|].
      unfold sget, sset in *. rewrite dict_get_set_ne in Hr' by auto. congruence.
    + unfold delete_student in Hr'.
      destruct (dict_mem String.eqb (students m) sid); [|cbn in Hr'; congruence].
      cbn [snd students save_records] in Hr'.
      destruct (String.eqb_spec k sid) as [->|ne].
      * unfold sget, sdel in *. rewrite dict_get_del_eq in Hr' by auto. discriminate.
      * unfold sget, sdel in *. rewrite dict_get_del_ne in Hr' by auto. congruence.
Qed.

(** C9: from a store whose records carry their key as 'id', every state
    reached by add, update and delete keeps that, holds no key twice,
    gives distinct records distinct identifiers, and no call changes the
    identifier of a record; update_student never writes the 'id' field. *)
Theorem identifiers_stable (m0 m : manager) :
  dict_wf (students m0) -> key_consistent (students m0) -> reachable m0 m ->
  dict_wf (students m) /\
  key_consistent (students m) /\
  (forall k1 k2 r1 r2,
     k1 <> k2 -> sget (students m) k1 = Some r1 -> sget (students m) k2 = Some r2 ->
     rget r1 "id" <> rget r2 "id") /\
  (forall o k r r',
     sget (students m) k = Some r -> sget (students (step m o)) k = Some r' ->
     rget r' "id" = rget r "id") /\
  (forall sid kwargs now r,
     sget (students m) sid = Some r ->
     exists r', sget (students (snd (update_student m sid kwargs now))) sid = Some r' /\
                rget r' "id" = Some (VStr sid)).
Proof.
  intros Hwf0 Hkc0 Hreach.
  assert (Hinv : dict_wf (students m) /\ key_consistent (students m)).
  { induction Hreach as [|m o _ [IHwf IHkc]]; [now split|].
    split; [now apply step_wf | now apply step_key_consistent]. }
  destruct Hinv as [Hwf Hkc].
  split; [exact Hwf|]. split; [exact Hkc|]. split; [|split].
  - intros k1 k2 r1 r2 Hne H1 H2.
    rewrite (Hkc _ _ H1), (Hkc _ _ H2). congruence.
  - intros o k r r'. now apply step_keeps_id.
  - intros sid kwargs now r Hr. unfold update_student. rewrite Hr.
    cbn [snd students save_records]. eexists. split.
    + apply dict_get_set_eq. auto.
    + rewrite update_keeps_id. now apply Hkc.
Qed.

Lemma identifiers_stable_witness :
  init None = Returns empty_manager /\
  dict_wf (students empty_manager) /\
  key_consistent (students empty_manager) /\
  reachable empty_manager (step (step empty_manager add_ann) add_bob) /\
  key_consistent (students (step (step empty_manager add_ann) add_bob)).
Proof.
  assert (Hwf : dict_wf (students empty_manager)) by constructor.
  assert (Hkc : key_consistent (students empty_manager)).
  { intros k r H. discriminate H. }
  assert (Hre : reachable empty_manager (step (step empty_manager add_ann) add_bob)).
  { apply reach_step. apply reach_step. apply reach_refl. }
  split; [reflexivity|].
  split; [exact Hwf|]. split; [exact Hkc|]. split; [exact Hre|].
  exact (proj1 (proj2 (identifiers_stable _ _ Hwf Hkc Hre))).
Defined.

(** ** Division of ints does not overflow below 2^1023 *)

Module FloatLemmas.
Import PyFloat.
















(** *** The accuracy of the division and of the rounding *)











End FloatLemmas.

(** ** get_statistics *)










(** ** The JSON text read back *)

Module JsonLemmas.
Import Json.

Lemma scanstring_escape_char (c : ascii) (x : string) :
  scanstring (escape_char c ++ x) = cons_result c (scanstring x).
Proof.
  destruct c as [[] [] [] [] [] [] [] []]; reflexivity.
Qed.

(** An encoded string reads back as the string it encodes. *)
Lemma scanstring_escape (s rest : string) :
  scanstring (escape s ++ String dquote rest) = Some (s, rest).
Proof.
  induction s as [|c s IH]; [reflexivity|].
  cbn [escape]. rewrite append_assoc, scanstring_escape_char, IH. reflexivity.
Qed.

Lemma span_digits_all (ds rest : string) :
  PyStr.all_digits ds = true ->
  (forall c t, rest = String c t -> PyStr.is_digit c = false) ->
  span_digits (ds ++ rest) = (ds, rest).
Proof.
  intros Hd Hrest. induction ds as [|c ds IH]; cbn [append].
  - destruct rest as [|c t]; [reflexivity|]. cbn [span_digits].
    now rewrite (Hrest c t eq_refl).
  - cbn [PyStr.all_digits] in Hd. apply andb_prop in Hd as [Hc Hds].
    cbn [span_digits]. rewrite Hc, (IH Hds). reflexivity.
Qed.

Lemma nzhead_no_zero (d d' : uint) : nzhead d <> D0 d'.
Proof. induction d; simpl; auto; discriminate. Qed.

(** The digits of a positive number do not start with a zero. *)
Lemma str_of_pos_head (p : positive) :
  exists c t, PyStr.str_of_N (Npos p) = String c t /\
              PyStr.is_digit c = true /\ Ascii.eqb c "0" = false.
Proof.
  unfold PyStr.str_of_N. cbn [N.to_uint].
  pose proof (DecimalPos.Unsigned.to_of (Pos.to_uint p)) as Hnorm.
  rewrite DecimalPos.Unsigned.of_to in Hnorm. cbn [N.to_uint] in Hnorm.
  pose proof (DecimalPos.Unsigned.to_uint_nonnil p) as Hnil.
  pose proof (DecimalPos.Unsigned.to_uint_nonzero p) as Hzero.
  destruct (Pos.to_uint p) as [|d|d|d|d|d|d|d|d|d|d] eqn:E;
    try (eexists _, _; split; [reflexivity | split; reflexivity]).
  - now elim Hnil.
  - exfalso. unfold unorm in Hnorm. cbn [nzhead] in Hnorm.
    destruct (nzhead d) eqn:En; try discriminate Hnorm.
    + injection Hnorm as ->. now elim Hzero.
    + now apply nzhead_no_zero in En.
Qed.

Lemma parse_number_str (z : Z) (rest : string) :
  no_digit_head rest ->
  parse_number (PyStr.str_of_Z z ++ rest) = Some (z, rest).
Proof.
  intros Hrest. unfold parse_number.
  assert (Hpos : forall p neg,
    (let '(ds, rest0) := span_digits (PyStr.str_of_N (Npos p) ++ rest) in
     match ds with
     | EmptyString => None
     | String c t =>
         if Ascii.eqb c "0" && negb (String.eqb t "") then None
         else match PyStr.N_of_digits ds with
              | Some n => Some (if neg : bool then - Z.of_N n else Z.of_N n, rest0)
              | None => None
              end
     end) = Some (if neg then Zneg p else Zpos p, rest)).
  { intros p neg.
    rewrite span_digits_all; [|apply DecimalLemmas.all_digits_uint|exact Hrest].
    destruct (str_of_pos_head p) as (c & t & E & _ & Hz).
    rewrite DecimalLemmas.N_of_digits_str. rewrite E, Hz. cbn [andb].
    now destruct neg. }
  destruct z as [|p|p].
  - cbn [PyStr.str_of_Z Z.to_N]. change (PyStr.str_of_N 0) with "0".
    cbn [append]. change (Ascii.eqb "0" "-") with false. cbn iota.
    change (String "0" rest) with ("0" ++ rest).
    rewrite span_digits_all; [reflexivity | reflexivity | exact Hrest].
  - cbn [PyStr.str_of_Z Z.to_N].
    destruct (str_of_pos_head p) as (c & t & E & Hc & _).
    rewrite E at 1. cbn [append].
    rewrite (proj1 (DecimalLemmas.digit_not_sign c Hc)).
    exact (Hpos p false).
  - cbn [PyStr.str_of_Z append]. change (Ascii.eqb "-" "-") with true. cbn iota.
    exact (Hpos p true).
Qed.

Lemma delimited_no_digit (rest : string) : delimited rest -> no_digit_head rest.
Proof.
  intros [t [->| ->]] c t' [= <- _]; reflexivity.
Qed.

Lemma skip_ws_spaces (n : nat) (x : string) : skip_ws (spaces n ++ x) = skip_ws x.
Proof. induction n as [|n IH]; [reflexivity | exact IH]. Qed.

Lemma skip_ws_newline_indent (l : nat) (x : string) :
  skip_ws (newline_indent l ++ x) = skip_ws x.
Proof. unfold newline_indent. cbn [append skip_ws]. apply skip_ws_spaces. Qed.

Lemma skip_ws_head (c : ascii) (t : string) :
  is_ws c = false -> skip_ws (String c t) = String c t.
Proof. intros H. cbn [skip_ws]. now rewrite H. Qed.

Lemma digit_not_quote (c : ascii) :
  PyStr.is_digit c = true ->
  Ascii.eqb c dquote = false /\ Ascii.eqb c "n" = false /\ is_ws c = false.
Proof.
  destruct c as [[] [] [] [] [] [] [] []]; vm_compute; intuition congruence.
Qed.

Lemma str_of_Z_head (z : Z) :
  exists c t, PyStr.str_of_Z z = String c t /\
              (c = "-"%char \/ PyStr.is_digit c = true).
Proof.
  destruct z as [|p|p].
  - exists "0"%char, "". split; [reflexivity | now right].
  - destruct (str_of_pos_head p) as (c & t & E & Hc & _).
    exists c, t. split; [exact E | now right].
  - eexists _, _. split; [reflexivity | now left].
Qed.

Lemma dump_value_head (v : value) :
  exists c t, dump_value v = String c t /\ is_ws c = false.
Proof.
  destruct v as [|z|s]; try (eexists _, _; split; reflexivity).
  destruct (str_of_Z_head z) as (c & t & E & Hc).
  exists c, t. split; [exact E|].
  destruct Hc as [->|Hc]; [reflexivity | now apply digit_not_quote].
Qed.

Lemma parse_scalar_dump (v : value) (rest : string) :
  delimited rest -> parse_scalar (dump_value v ++ rest) = Some (v, rest).
Proof.
  intros Hrest. destruct v as [|z|s].
  - reflexivity.
  - cbn [dump_value].
    pose proof (parse_number_str z rest (delimited_no_digit _ Hrest)) as Hn.
    destruct (str_of_Z_head z) as (c & t & E & Hc).
    rewrite E in *. cbn [append] in *. cbn [parse_scalar].
    assert (Hq : Ascii.eqb c dquote = false /\ Ascii.eqb c "n" = false).
    { destruct Hc as [->|Hc]; [split; reflexivity|].
      destruct (digit_not_quote c Hc) as (? & ? & _). now split. }
    destruct Hq as [-> ->]. now rewrite Hn.
  - cbn [dump_value]. unfold encode_string. cbn [append parse_scalar].
    change (Ascii.eqb dquote dquote) with true. cbn iota.
    rewrite append_assoc. cbn [append]. now rewrite scanstring_escape.
Qed.

Lemma string_length_append (a b : string) :
  String.length (a ++ b) = (String.length a + String.length b)%nat.
Proof. induction a as [|c a IH]; simpl; [reflexivity | now rewrite IH]. Qed.

Section ObjectRoundTrip.
Context {V : Type}.
Variable enc : V -> string.
Variable pv : string -> option (V * string).
Variable ok : V -> Prop.
Hypothesis enc_head : forall v, exists c t, enc v = String c t /\ is_ws c = false.
Hypothesis pv_enc :
  forall v rest, ok v -> delimited rest -> pv (enc v ++ rest) = Some (v, rest).

Lemma tail_text_delimited (l : nat) (items : list (string * V)) (rest : string) :
  delimited (tail_text enc l items rest).
Proof.
  destruct items as [|[k v] more]; cbn [tail_text append newline_indent];
    eexists; [right | left]; reflexivity.
Qed.

Lemma tail_text_length (l : nat) (items : list (string * V)) (rest : string) :
  (List.length items <= String.length (tail_text enc l items rest))%nat.
Proof.
  induction items as [|[k v] more IH]; cbn [tail_text List.length]; [lia|].
  rewrite !string_length_append. change (String.length ",") with 1%nat. lia.
Qed.

Lemma dump_items_tail (l : nat) (k : string) (v : V)
  (more : list (string * V)) (rest : string) :
  dump_items enc ("," ++ newline_indent (S l)) ((k, v) :: more)
    ++ newline_indent l ++ String "}" rest =
  encode_string k ++ ": " ++ enc v ++ tail_text enc l more rest.
Proof.
  revert k v. induction more as [|[k' v'] more IH]; intros k v.
  - cbn [dump_items tail_text]. now rewrite !append_assoc.
  - cbn [tail_text]. rewrite <- IH.
    change (dump_items enc ("," ++ newline_indent (S l)) ((k, v) :: (k', v') :: more))
      with (encode_string k ++ ": " ++ enc v ++ ("," ++ newline_indent (S l))
              ++ dump_items enc ("," ++ newline_indent (S l)) ((k', v') :: more)).
    now rewrite !append_assoc.
Qed.

Lemma dump_dict_text (l : nat) (k : string) (v : V)
  (more : list (string * V)) (rest : string) :
  dump_dict enc l ((k, v) :: more) ++ rest =
  String "{" (newline_indent (S l) ++
              String dquote (escape k ++ String dquote (": " ++ enc v ++ tail_text enc l more rest))).
Proof.
  unfold dump_dict. rewrite !append_assoc.
  change (String "}" "" ++ rest) with (String "}" rest).
  rewrite dump_items_tail. unfold encode_string. cbn [append].
  rewrite append_assoc. reflexivity.
Qed.

Lemma build_fresh (items : list (string * V)) (acc : dict string V) :
  dict_wf (acc ++ items)%list -> build acc items = (acc ++ items)%list.
Proof.
  revert acc. induction items as [|[k v] items IH]; intros acc Hwf; cbn [build fold_left].
  - now rewrite List.app_nil_r.
  - cbn [fst snd]. fold (build (dict_set String.eqb acc k v) items).
    assert (Habs : dict_get String.eqb acc k = None).
    { apply dict_get_none; auto. unfold dict_wf, dict_keys in Hwf.
      rewrite map_app in Hwf. cbn [map fst] in Hwf.
      apply NoDup_remove_2 in Hwf. intros Hin. apply Hwf.
      apply in_or_app. now left. }
    rewrite (dict_set_absent String.eqb String.eqb_spec _ _ _ Habs).
    rewrite IH; rewrite <- List.app_assoc; [reflexivity | exact Hwf].
Qed.

(** The member loop reads the members of a dumped object back, given fuel
    for each of them. *)
Lemma members_dump (l : nat) (more : list (string * V)) :
  forall (k : string) (v : V) (acc : dict string V) (fuel : nat) (rest : string),
    ok v -> Forall (fun kv => ok (snd kv)) more ->
    (List.length more < fuel)%nat ->
    members pv fuel
      (escape k ++ String dquote (": " ++ enc v ++ tail_text enc l more rest)) acc =
    Some (build acc ((k, v) :: more), rest).
Proof.
  induction more as [|[k' v'] more IH]; intros k v acc fuel rest Hv Hmore Hfuel;
    (destruct fuel as [|fuel]; [cbn [List.length] in Hfuel; lia|]);
    cbn [members]; rewrite scanstring_escape;
    change (skip_ws (": " ++ enc v ++ tail_text enc l ?x rest))
      with (String ":" (String " " (enc v ++ tail_text enc l x rest)));
    cbn iota;
    change (skip_ws (String " " (enc v ++ tail_text enc l ?x rest)))
      with (skip_ws (enc v ++ tail_text enc l x rest));
    destruct (enc_head v) as (c & t & E & Hc);
    (assert (Hskip : forall x, skip_ws (enc v ++ x) = enc v ++ x)
       by (intros x; rewrite E; cbn [append]; now apply skip_ws_head));
    rewrite Hskip, (pv_enc v _ Hv (tail_text_delimited l _ rest)).
  - cbn [tail_text]. rewrite skip_ws_newline_indent.
    rewrite skip_ws_head by reflexivity. reflexivity.
  - cbn [tail_text append]. rewrite skip_ws_head by reflexivity.
    rewrite skip_ws_newline_indent. unfold encode_string. cbn [append].
    rewrite skip_ws_head by reflexivity.
    change (Ascii.eqb dquote dquote) with true. cbn iota.
    rewrite append_assoc. cbn [append].
    inversion Hmore as [|? ? Hv' Hmore']; subst.
    change (String ":" (String " " (enc v' ++ tail_text enc l more rest)))
      with (": " ++ enc v' ++ tail_text enc l more rest).
    rewrite IH; [reflexivity | exact Hv' | exact Hmore' |].
    cbn [List.length] in Hfuel. lia.
Qed.

(** A dumped object reads back as the dict it was dumped from. *)
Lemma parse_object_dump (l : nat) (d : dict string V) (rest : string) :
  dict_wf d -> Forall (fun kv => ok (snd kv)) d ->
  parse_object pv (dump_dict enc l d ++ rest) = Some (d, rest).
Proof.
  intros Hwf Hok. destruct d as [|[k v] more]; [reflexivity|].
  rewrite dump_dict_text. cbn [parse_object].
  rewrite skip_ws_newline_indent, skip_ws_head by reflexivity.
  change (Ascii.eqb dquote "}") with false.
  change (Ascii.eqb dquote dquote) with true. cbn iota.
  inversion Hok as [|? ? Hv Hmore]; subst.
  rewrite (members_dump l more k v [] _ rest Hv Hmore).
  - rewrite build_fresh; [reflexivity | exact Hwf].
  - rewrite string_length_append. cbn [String.length].
    rewrite !string_length_append.
    pose proof (tail_text_length l more rest). lia.
Qed.
End ObjectRoundTrip.

Lemma parse_record_dump (r : record) (rest : string) :
  dict_wf r -> parse_record (dump_dict dump_value 1 r ++ rest) = Some (r, rest).
Proof.
  intros Hwf. unfold parse_record.
  apply (parse_object_dump dump_value parse_scalar (fun _ => True)).
  - exact dump_value_head.
  - intros v x _. apply parse_scalar_dump.
  - exact Hwf.
  - apply Forall_forall. trivial.
Qed.

Lemma dump_record_head (r : record) :
  exists c t, dump_dict dump_value 1 r = String c t /\ is_ws c = false.
Proof.
  destruct r; eexists _, _; split; reflexivity.
Qed.

(** [json.load] of what [json.dump] wrote *)
Lemma json_load_dump (s : store) : store_wf s -> json_load (json_dump s) = Decoded s.
Proof.
  intros [Hwf Hrec]. unfold json_load, json_dump, parse_store.
  assert (Hhead : skip_ws (dump_dict (dump_dict dump_value 1) 0 s) =
                  dump_dict (dump_dict dump_value 1) 0 s).
  { destruct s; reflexivity. }
  rewrite Hhead.
  rewrite <- (append_nil_r (dump_dict (dump_dict dump_value 1) 0 s)).
  rewrite (parse_object_dump (dump_dict dump_value 1) parse_record (fun r => dict_wf r)).
  - reflexivity.
  - exact dump_record_head.
  - intros r x Hr _. now apply parse_record_dump.
  - exact Hwf.
  - exact Hrec.
Qed.

End JsonLemmas.

(** C8: the mapping that load_records reads from the file save_records
    wrote is the mapping that was saved, key for key and field for field. *)
Theorem save_load_round_trip (m : manager) :
  store_wf (students m) ->
  load_records (disk (save_records m)) = Returns (students m) /\
  init (disk (save_records m)) = Returns (save_records m).
Proof.
  intros Hwf. unfold init, load_records, save_records. cbn [disk students].
  now rewrite (JsonLemmas.json_load_dump _ Hwf).
Qed.

Lemma save_load_round_trip_witness :
  store_wf (students class_of_three) /\
  load_records (disk (save_records class_of_three)) =
    Returns (students class_of_three).
Proof.
  assert (Hwf : store_wf (students class_of_three)).
  { split.
    - unfold dict_wf. cbn. repeat constructor; cbn; intuition discriminate.
    - repeat constructor; unfold dict_wf; cbn;
        repeat constructor; cbn; intuition discriminate. }
  split; [exact Hwf|].
  exact (proj1 (save_load_round_trip class_of_three Hwf)).
Defined.

(** ** add_student, delete_student and get_student together *)

Lemma dict_del_appended {V : Type} (d : dict string V) (k : string) (v : V) :
  dict_get String.eqb d k = None ->
  dict_del String.eqb (d ++ [(k, v)])%list k = d.
Proof.
  induction d as [|[k0 v0] d IH]; cbn [List.app dict_del dict_get].
  - intros _. now rewrite String.eqb_refl.
  - destruct (String.eqb_spec k0 k) as [->|ne]; [discriminate|].
    intros H. now rewrite IH.
Qed.

Lemma dict_del_split {V : Type} (d : dict string V) (k : string) (v : V) :
  dict_get String.eqb d k = Some v ->
  exists l1 l2, d = (l1 ++ (k, v) :: l2)%list /\
                dict_del String.eqb d k = (l1 ++ l2)%list /\
                dict_get String.eqb l1 k = None.
Proof.
  induction d as [|[k0 v0] d IH]; cbn [dict_del dict_get]; [discriminate|].
  destruct (String.eqb_spec k0 k) as [->|ne].
  - intros [= ->]. exists [], d. repeat split.
  - intros H. destruct (IH H) as (l1 & l2 & -> & Hdel & Hl1).
    exists ((k0, v0) :: l1), l2. cbn [List.app dict_get]. rewrite Hdel.
    destruct (String.eqb_spec k0 k); [contradiction|]. repeat split. exact Hl1.
Qed.

(** X1: add_student stores, under the identifier it returns, a record with
    exactly the supplied fields and the two clock readings; the record
    goes to the end of the listing, every present record stays, and the
    file holds the dump of the new mapping. *)
Theorem add_student_stores
  (m m' : manager) (name age grade email phone : value) (t1 t2 sid : string) :
  add_student m name age grade email phone t1 t2 = Some (sid, m') ->
  get_student m' sid = Some (new_record sid name age grade email phone t1 t2) /\
  get_student m sid = None /\
  students m' = (students m ++ [(sid, new_record sid name age grade email phone t1 t2)])%list /\
  get_all_students m' =
    (get_all_students m ++ [new_record sid name age grade email phone t1 t2])%list /\
  disk m' = Some (Json.json_dump (students m')).
Proof.
  unfold add_student. destruct (generate_id (students m)) as [sid0|] eqn:G;
    [|discriminate].
  intros [= -> <-]. pose proof (generate_id_fresh _ _ G) as Hfresh.
  unfold get_student, get_all_students. cbn [students disk save_records].
  fold (new_record sid name age grade email phone t1 t2).
  unfold sset. rewrite (dict_set_absent String.eqb String.eqb_spec _ _ _ Hfresh).
  split.
  { unfold sget. rewrite <- (dict_set_absent String.eqb String.eqb_spec _ _ _ Hfresh).
    apply dict_get_set_eq. auto. }
  split; [exact Hfresh|]. split; [reflexivity|].
  split; [|reflexivity].
  unfold dict_values. now rewrite map_app.
Qed.

Lemma add_student_stores_witness :
  option_map fst
    (add_student sample_manager (VStr "Bob") (VInt 13) (VStr "B") VNone VNone
       "2024-01-02 10:00:00" "2024-01-02 10:05:00") = Some "STU002" /\
  forall m',
    add_student sample_manager (VStr "Bob") (VInt 13) (VStr "B") VNone VNone
      "2024-01-02 10:00:00" "2024-01-02 10:05:00" = Some ("STU002", m') ->
    get_student m' "STU002" =
      Some (new_record "STU002" (VStr "Bob") (VInt 13) (VStr "B") VNone VNone
              "2024-01-02 10:00:00" "2024-01-02 10:05:00").
Proof.
  split; [reflexivity|]. intros m' H.
  exact (proj1 (add_student_stores _ _ _ _ _ _ _ _ _ _ H)).
Defined.

(** X2: delete_student of a present identifier returns True, takes exactly
    that record out of the mapping and leaves the others in their order;
    the identifier is then unknown, and a second delete returns False. *)
Theorem delete_student_removes (m : manager) (sid : string) (r : record) :
  dict_wf (students m) -> get_student m sid = Some r ->
  fst (delete_student m sid) = true /\
  (exists l1 l2, students m = (l1 ++ (sid, r) :: l2)%list /\
                 students (snd (delete_student m sid)) = (l1 ++ l2)%list) /\
  get_student (snd (delete_student m sid)) sid = None /\
  (forall other, other <> sid ->
     get_student (snd (delete_student m sid)) other = get_student m other) /\
  fst (delete_student (snd (delete_student m sid)) sid) = false /\
  disk (snd (delete_student m sid)) =
    Some (Json.json_dump (students (snd (delete_student m sid)))).
Proof.
  unfold get_student, sget. intros Hwf Hget.
  assert (Hdel : delete_student m sid =
                 (true, save_records {| students := sdel (students m) sid;
                                        disk := disk m |})).
  { unfold delete_student, dict_mem. now rewrite Hget. }
  rewrite Hdel. cbn [fst snd students disk save_records].
  assert (Hnone : dict_get String.eqb (sdel (students m) sid) sid = None).
  { apply dict_get_del_eq; auto. }
  split; [reflexivity|]. split.
  { destruct (dict_del_split _ _ _ Hget) as (l1 & l2 & E & Ed & _).
    exists l1, l2. now split. }
  split; [exact Hnone|]. split.
  { intros other Hne. apply dict_get_del_ne; auto. }
  split; [|reflexivity].
  unfold delete_student, dict_mem. cbn [students save_records]. now rewrite Hnone.
Qed.

Lemma delete_student_removes_witness :
  dict_wf (students sample_manager) /\
  get_student sample_manager "STU001" = Some sample_record /\
  get_student (snd (delete_student sample_manager "STU001")) "STU001" = None.
Proof.
  assert (Hwf : dict_wf (students sample_manager)).
  { unfold dict_wf. cbn. repeat constructor. intros []. }
  split; [exact Hwf|]. split; [reflexivity|].
  destruct (delete_student_removes sample_manager "STU001" sample_record Hwf eq_refl)
    as (_ & _ & Hnone & _).
  exact Hnone.
Defined.

(** X3: deleting the identifier that an add has just returned gives back
    the mapping as it was before the add. *)
Theorem add_then_delete_restores
  (m m' : manager) (name age grade email phone : value) (t1 t2 sid : string) :
  add_student m name age grade email phone t1 t2 = Some (sid, m') ->
  fst (delete_student m' sid) = true /\
  students (snd (delete_student m' sid)) = students m.
Proof.
  intros Hadd.
  destruct (add_student_stores _ _ _ _ _ _ _ _ _ _ Hadd) as (Hget & Hfresh & Hst & _).
  unfold get_student, sget in *.
  unfold delete_student, dict_mem. rewrite Hget.
  cbn [fst snd students save_records]. split; [reflexivity|].
  unfold sdel. rewrite Hst. now apply dict_del_appended.
Qed.

Lemma add_then_delete_restores_witness :
  option_map fst
    (add_student sample_manager (VStr "Bob") (VInt 13) (VStr "B") VNone VNone
       "2024-01-02 10:00:00" "2024-01-02 10:05:00") = Some "STU002" /\
  forall m',
    add_student sample_manager (VStr "Bob") (VInt 13) (VStr "B") VNone VNone
      "2024-01-02 10:00:00" "2024-01-02 10:05:00" = Some ("STU002", m') ->
    students (snd (delete_student m' "STU002")) = students sample_manager.
Proof.
  split; [reflexivity|]. intros m' H.
  exact (proj2 (add_then_delete_restores _ _ _ _ _ _ _ _ _ _ H)).
Defined.

(** ** update_student applies what it is given *)

Lemma apply_field_effective (r : record) (f : string) (v : value) :
  effective (f, v) = true -> rget (apply_field r (f, v)) f = Some v.
Proof.
  unfold effective, apply_field. cbn [fst snd]. intros ->.
  apply dict_get_set_eq. auto.
Qed.

Lemma fold_apply_field_assigned (kwargs : list (string * value)) :
  forall (r : record) (f : string) (v : value),
    NoDup (map fst kwargs) -> In (f, v) kwargs -> effective (f, v) = true ->
    rget (fold_left apply_field kwargs r) f = Some v.
Proof.
  induction kwargs as [|[f0 v0] kwargs IH]; intros r f v Hnd Hin Heff; [contradiction|].
  cbn [map fst] in Hnd. inversion Hnd as [|? ? Hni Hnd']; subst.
  cbn [fold_left]. destruct Hin as [[= -> ->]|Hin].
  - rewrite fold_apply_field_other.
    + now apply apply_field_effective.
    + intros Hf. apply Hni. apply in_map_iff in Hf as (kv & <- & Hkv).
      apply filter_In in Hkv as [Hkv _]. now apply in_map.
  - now apply IH.
Qed.

(** X4: after a successful update_student every keyword of the allow-list
    that was given a value other than None holds that value in the
    record (keywords are distinct, as in any Python call). *)
Theorem update_student_applies
  (m : manager) (sid : string) (r : record)
  (kwargs : list (string * value)) (now : string) :
  get_student m sid = Some r -> NoDup (map fst kwargs) ->
  exists r',
    get_student (snd (update_student m sid kwargs now)) sid = Some r' /\
    forall f v, In (f, v) kwargs -> In f valid_fields -> v <> VNone ->
                rget r' f = Some v.
Proof.
  unfold get_student. intros Hget Hnd. unfold update_student. rewrite Hget.
  cbn [snd students save_records]. eexists. split.
  { apply dict_get_set_eq. auto. }
  intros f v Hin Hvalid Hv.
  assert (Heff : effective (f, v) = true).
  { unfold effective. cbn [fst snd].
    rewrite (proj2 (is_valid_field_spec f) Hvalid). now destruct v. }
  unfold rget, rset. rewrite dict_get_set_ne; auto.
  - now apply fold_apply_field_assigned.
  - intros ->. cbn in Hvalid. intuition discriminate.
Qed.

Lemma update_student_applies_witness :
  get_student sample_manager "STU001" = Some sample_record /\
  NoDup (map fst grade_only_kwargs) /\
  exists r',
    get_student (snd (update_student sample_manager "STU001" grade_only_kwargs
                        "2024-02-02 09:30:00")) "STU001" = Some r' /\
    rget r' "grade" = Some (VStr "B").
Proof.
  assert (Hnd : NoDup (map fst grade_only_kwargs)).
  { cbn. repeat constructor; cbn; intuition discriminate. }
  split; [reflexivity|]. split; [exact Hnd|].
  destruct (update_student_applies sample_manager "STU001" sample_record
              grade_only_kwargs "2024-02-02 09:30:00" eq_refl Hnd)
    as (r' & Hget & Hval).
  exists r'. split; [exact Hget|].
  apply Hval; [cbn; auto | cbn; auto | discriminate].
Defined.

(** ** What a search selects *)

Lemma record_matches_single (student : record) (key : string) (v : value) :
  truthy v = true -> record_matches student [(key, v)] = field_equals key v student.
Proof.
  intros Hv. unfold field_equals. cbn [record_matches]. rewrite Hv.
  destruct (rget student key) as [field|]; [|reflexivity].
  destruct v as [|z|sv]; [discriminate | |].
  - now destruct (value_eqb field (VInt z)).
  - destruct (value_eqb_spec field (VStr sv)) as [->|Hdiff]; cbn [negb].
    + cbn [py_str]. now rewrite contains_refl.
    + now destruct (PyStr.contains _ _).
Qed.

Lemma record_matches_all (student : record) (criteria : list (string * value)) :
  record_matches student criteria =
  forallb (fun kv => negb (truthy (snd kv)) || field_equals (fst kv) (snd kv) student)
          criteria.
Proof.
  induction criteria as [|[key v] criteria IH]; [reflexivity|].
  change ((key, v) :: criteria) with ([(key, v)] ++ criteria)%list.
  rewrite record_matches_app, forallb_app, IH. f_equal.
  cbn [forallb fst snd]. rewrite andb_true_r.
  destruct (truthy v) eqn:Hv; cbn [negb orb].
  - now apply record_matches_single.
  - now apply record_matches_falsy.
Qed.

(** X5: search_students returns, in store order, exactly the records
    that for every criterion with a true value either lack the key or hold
    that very value: a string criterion selects by equality like any
    other, and criteria whose value is None, 0 or empty select nothing. *)
Theorem search_students_selects (m : manager) (criteria : list (string * value)) :
  search_students m criteria =
  filter (fun student =>
            forallb (fun kv => negb (truthy (snd kv))
                               || field_equals (fst kv) (snd kv) student) criteria)
         (get_all_students m) /\
  (forall key sv student,
     sv <> "" -> rget student key <> None ->
     (In student (search_students m [(key, VStr sv)]) <->
      In student (get_all_students m) /\ rget student key = Some (VStr sv))) /\
  ((forall kv, In kv criteria -> truthy (snd kv) = false) ->
   search_students m criteria = get_all_students m).
Proof.
  assert (Hsel : forall cs, search_students m cs =
            filter (fun student =>
                      forallb (fun kv => negb (truthy (snd kv))
                                         || field_equals (fst kv) (snd kv) student) cs)
                   (get_all_students m)).
  { intros cs. unfold search_students, get_all_students.
    apply filter_ext. intros student. apply record_matches_all. }
  split; [apply Hsel|]. split.
  - intros key sv student Hsv Hkey. rewrite Hsel, filter_In.
    cbn [forallb fst snd truthy]. destruct (String.eqb_spec sv ""); [contradiction|].
    cbn [negb orb]. rewrite andb_true_r. unfold field_equals.
    destruct (rget student key) as [field|]; [|now elim Hkey].
    destruct (value_eqb_spec field (VStr sv)) as [->|Hdiff]; split;
      intros [Hin H]; split; auto; congruence.
  - intros Hblank. rewrite Hsel. unfold get_all_students.
    induction (dict_values (students m)) as [|st l IH]; [reflexivity|].
    cbn [filter].
    assert (Hall : forallb (fun kv => negb (truthy (snd kv))
                                      || field_equals (fst kv) (snd kv) st) criteria = true).
    { apply forallb_forall. intros kv Hkv. now rewrite (Hblank kv Hkv). }
    rewrite Hall. now rewrite IH.
Qed.

Lemma search_students_selects_witness :
  (forall kv, In kv [("name", VNone); ("age", VInt 0); ("grade", VStr "")] ->
              truthy (snd kv) = false) /\
  search_students class_of_three [("name", VNone); ("age", VInt 0); ("grade", VStr "")]
    = get_all_students class_of_three.
Proof.
  assert (Hblank : forall kv,
            In kv [("name", VNone); ("age", VInt 0); ("grade", VStr "")] ->
            truthy (snd kv) = false).
  { intros kv [<-|[<-|[<-|[]]]]; reflexivity. }
  split; [exact Hblank|].
  exact (proj2 (proj2 (search_students_selects class_of_three _)) Hblank).
Defined.

(** ** The grade counts add up *)

Lemma count_total_set (d : dict value Z) (g : value) :
  count_total
    (dict_set value_eqb d g
       (match dict_get value_eqb d g with Some c => c | None => 0 end + 1)) =
  count_total d + 1.
Proof.
  unfold count_total, Zsum, dict_values.
  induction d as [|[g0 c0] d IH]; cbn [dict_set dict_get map snd fold_right]; [lia|].
  destruct (value_eqb g0 g); cbn [map snd fold_right]; lia.
Qed.

Lemma count_grades_total (rs : list record) :
  forall acc d,
    count_grades rs acc = Some d ->
    count_total d = count_total acc + Z.of_nat (List.length rs) /\
    ((forall g c, dict_get value_eqb acc g = Some c -> 1 <= c) ->
     forall g c, dict_get value_eqb d g = Some c -> 1 <= c).
Proof.
  induction rs as [|r rs IH]; intros acc d; cbn [count_grades List.length].
  - intros [= <-]. split; [lia | auto].
  - destruct (rget r "grade") as [grade|]; [|discriminate].
    intros H. destruct (IH _ _ H) as [Hsum Hpos].
    rewrite Hsum, count_total_set. split; [lia|].
    intros Hacc. apply Hpos. intros g c.
    destruct (value_eqb_spec g grade) as [->|ne].
    + rewrite dict_get_set_eq by exact value_eqb_spec. intros [= <-].
      destruct (dict_get value_eqb acc grade) as [c0|] eqn:E; [|lia].
      specialize (Hacc _ _ E). lia.
    + rewrite dict_get_set_ne by (exact value_eqb_spec || exact ne). apply Hacc.
Qed.

(** X6: whenever get_statistics returns, the total is the number of
    records listed, the counts of the grade distribution add up to that
    total, and no grade is listed with a count below 1. *)
Theorem get_statistics_counts_add_up (m : manager) (st : statistics) :
  get_statistics m = Some st ->
  total_students st = Z.of_nat (List.length (get_all_students m)) /\
  count_total (grade_distribution st) = total_students st /\
  (forall g c, dict_get value_eqb (grade_distribution st) g = Some c -> 1 <= c).
Proof.
  unfold get_statistics, get_all_students.
  assert (Hlen : List.length (dict_values (students m)) = List.length (students m)).
  { unfold dict_values. apply length_map. }
  rewrite Hlen.
  destruct (students m) as [|kr s] eqn:E.
  - intros [= <-]. cbn. repeat split. intros g c H. discriminate H.
  - destruct (ages_of (dict_values (kr :: s))) as [ages|]; [|discriminate].
    destruct (py_sum 0 ages) as [total_age|]; [|discriminate].
    destruct (PyFloat.truediv total_age (Z.of_nat (List.length (kr :: s))));
      [|discriminate].
    destruct (count_grades (dict_values (kr :: s)) []) as [grades|] eqn:G;
      [|discriminate].
    intros [= <-]. cbn [total_students grade_distribution].
    destruct (count_grades_total _ _ _ G) as [Hsum Hpos].
    split; [reflexivity|]. split.
    + rewrite Hsum. unfold dict_values. rewrite length_map. cbn. lia.
    + apply Hpos. intros g c H. discriminate H.
Qed.

Lemma get_statistics_counts_add_up_witness :
  exists st, get_statistics class_of_three = Some st /\
             count_total (grade_distribution st) = 3.
Proof.
  eexists. split; [reflexivity|].
  destruct (get_statistics_counts_add_up class_of_three _ eq_refl) as (_ & Hsum & _).
  exact Hsum.
Defined.

(** ** The file follows the mapping *)

Section DictForall.
Context {V : Type}.
Variable P : V -> Prop.

Lemma dict_set_Forall (d : dict string V) (k : string) (v : V) :
  Forall (fun kv => P (snd kv)) d -> P v ->
  Forall (fun kv => P (snd kv)) (dict_set String.eqb d k v).
Proof.
  intros Hd Hv. induction Hd as [|[k0 v0] d H0 Hd IH]; cbn [dict_set].
  - now constructor.
  - destruct (String.eqb k0 k); constructor; auto.
Qed.

Lemma dict_del_Forall (d : dict string V) (k : string) :
  Forall (fun kv => P (snd kv)) d ->
  Forall (fun kv => P (snd kv)) (dict_del String.eqb d k).
Proof.
  intros Hd. induction Hd as [|[k0 v0] d H0 Hd IH]; cbn [dict_del].
  - constructor.
  - destruct (String.eqb k0 k); [exact Hd | now constructor].
Qed.

Lemma dict_get_Forall (d : dict string V) (k : string) (v : V) :
  Forall (fun kv => P (snd kv)) d -> dict_get String.eqb d k = Some v -> P v.
Proof.
  intros Hd Hget. apply dict_get_in_pair in Hget; auto.
  rewrite Forall_forall in Hd. exact (Hd _ Hget).
Qed.
End DictForall.

Ltac break_match_in H :=
  repeat match type of H with
         | context [match ?x with _ => _ end] => destruct x eqn:?; try discriminate H
         end.

Section ObjectWf.
Context {V : Type}.
Variable pv : string -> option (V * string).
Variable ok : V -> Prop.
Hypothesis pv_ok : forall s v rest, pv s = Some (v, rest) -> ok v.

Lemma members_wf (fuel : nat) :
  forall s acc d rest,
    Json.members pv fuel s acc = Some (d, rest) ->
    dict_wf acc -> Forall (fun kv => ok (snd kv)) acc ->
    dict_wf d /\ Forall (fun kv => ok (snd kv)) d.
Proof.
  induction fuel as [|fuel IH]; intros s acc d rest H Hwf Hok; [discriminate|].
  cbn [Json.members] in H.
  destruct (Json.scanstring s) as [[key s1]|]; [|discriminate].
  destruct (Json.skip_ws s1) as [|c1 s2]; [discriminate|].
  destruct (pv (Json.skip_ws s2)) as [[v s3]|] eqn:Hv;
    [|break_match_in H; discriminate].
  assert (Hwf' : dict_wf (dict_set String.eqb acc key v))
    by (apply dict_set_wf; auto).
  assert (Hok' : Forall (fun kv => ok (snd kv)) (dict_set String.eqb acc key v))
    by (apply dict_set_Forall; eauto).
  break_match_in H; subst;
    first [ injection H as <- <-; now split | eapply IH; eauto ].
Qed.

Lemma parse_object_wf (s : string) (d : dict string V) (rest : string) :
  Json.parse_object pv s = Some (d, rest) ->
  dict_wf d /\ Forall (fun kv => ok (snd kv)) d.
Proof.
  unfold Json.parse_object. intros H.
  destruct s as [|c0 s1]; [discriminate|].
  destruct (Json.skip_ws s1) as [|c s2];
    [break_match_in H; discriminate|].
  break_match_in H; subst;
    first [ injection H as <- <-; split; constructor
          | eapply members_wf; eauto; constructor ].
Qed.
End ObjectWf.

(** A decoded text is a mapping without repeated keys. *)
Lemma json_load_wf (txt : string) (s : store) :
  Json.json_load txt = Json.Decoded s -> store_wf s.
Proof.
  unfold Json.json_load, Json.parse_store. intros H.
  destruct (Json.parse_object Json.parse_record (Json.skip_ws txt)) as [[s0 rest]|] eqn:E.
  2: { destruct (Json.scan_value _ _) as [r| |]; [destruct (Json.skip_ws r)|..];
         discriminate. }
  destruct (Json.skip_ws rest); [|discriminate]. injection H as <-.
  apply (parse_object_wf Json.parse_record (fun r => dict_wf r)) in E; [exact E|].
  intros x r rest' Hr. unfold Json.parse_record in Hr.
  now apply (parse_object_wf Json.parse_scalar (fun _ => True)) in Hr.
Qed.

Lemma load_records_wf (d : option string) (s : store) :
  load_records d = Returns s -> store_wf s.
Proof.
  unfold load_records. destruct d as [txt|].
  - destruct (Json.json_load txt) as [s0| |] eqn:E; intros [= <-].
    + now apply json_load_wf in E.
    + split; constructor.
  - intros [= <-]. split; constructor.
Qed.

Lemma apply_field_wf (r : record) (kv : string * value) :
  dict_wf r -> dict_wf (apply_field r kv).
Proof.
  destruct kv as [f v]. unfold apply_field.
  destruct (is_valid_field f && negb (is_none v)); [|trivial].
  intros H. apply dict_set_wf; auto.
Qed.

Lemma fold_apply_field_wf (kwargs : list (string * value)) (r : record) :
  dict_wf r -> dict_wf (fold_left apply_field kwargs r).
Proof.
  revert r. induction kwargs as [|kv kwargs IH]; intros r H; [exact H|].
  cbn [fold_left]. apply IH. now apply apply_field_wf.
Qed.

Lemma new_record_wf (sid : string) (name age grade email phone : value) (t1 t2 : string) :
  dict_wf (new_record sid name age grade email phone t1 t2).
Proof.
  unfold dict_wf, new_record. cbn [dict_keys map fst].
  repeat (constructor; [cbn [In]; intuition discriminate|]). constructor.
Qed.

Lemma step_store_wf (m : manager) (o : op) :
  store_wf (students m) -> store_wf (students (step m o)).
Proof.
  intros [Hwf Hrec].
  destruct o as [name age grade email phone t1 t2|sid kwargs now|sid]; cbn [step].
  - unfold add_student. destruct (generate_id (students m)) as [sid|]; [|now split].
    cbn [students save_records]. split.
    + apply dict_set_wf; auto.
    + apply (dict_set_Forall (fun r => dict_wf r)); [exact Hrec|].
      apply new_record_wf.
  - unfold update_student. destruct (sget (students m) sid) as [r|] eqn:E; [|now split].
    cbn [snd students save_records]. split.
    + apply dict_set_wf; auto.
    + apply (dict_set_Forall (fun r => dict_wf r)); [exact Hrec|].
      apply dict_set_wf; auto. apply fold_apply_field_wf.
      exact (dict_get_Forall (fun r => dict_wf r) _ _ _ Hrec E).
  - unfold delete_student. destruct (dict_mem String.eqb (students m) sid); [|now split].
    cbn [snd students save_records]. split.
    + apply dict_del_wf; auto.
    + now apply (dict_del_Forall (fun r => dict_wf r)).
Qed.

(** A call either leaves the manager as it was or has just written the
    dump of its mapping. *)
Lemma step_saved (m : manager) (o : op) :
  step m o = m \/ disk (step m o) = Some (Json.json_dump (students (step m o))).
Proof.
  destruct o as [name age grade email phone t1 t2|sid kwargs now|sid]; cbn [step].
  - unfold add_student. destruct (generate_id (students m)); [right | left]; reflexivity.
  - unfold update_student. destruct (sget (students m) sid); [right | left]; reflexivity.
  - unfold delete_student. destruct (dict_mem String.eqb (students m) sid);
      [right | left]; reflexivity.
Qed.

Lemma run_recoverable (ops : list op) :
  forall m, store_wf (students m) -> recoverable m ->
            store_wf (students (run m ops)) /\ recoverable (run m ops).
Proof.
  unfold run. induction ops as [|o ops IH]; intros m Hwf Hrec; [now split|].
  cbn [fold_left]. apply IH.
  - now apply step_store_wf.
  - destruct (step_saved m o) as [->|Hd]; [exact Hrec|].
    unfold recoverable, load_records. rewrite Hd.
    rewrite JsonLemmas.json_load_dump; [reflexivity|].
    now apply step_store_wf.
Qed.

(** X7: from a manager whose file mirrors its mapping (as after a start
    on no file or on a file this program wrote), after any run of adds,
    updates and deletes, found or not, a manager started anew on the file
    as it now is holds the very mapping the running manager holds, and
    that mapping has no repeated key. *)
Theorem restart_recovers_mapping (m0 : manager) (ops : list op) :
  store_wf (students m0) -> recoverable m0 ->
  store_wf (students (run m0 ops)) /\
  recoverable (run m0 ops) /\
  init (disk (run m0 ops)) = Returns (run m0 ops).
Proof.
  intros Hwf Hrec. destruct (run_recoverable ops m0 Hwf Hrec) as [H1 H2].
  split; [exact H1|]. split; [exact H2|].
  unfold init. rewrite H2. now destruct (run m0 ops).
Qed.

Lemma restart_recovers_mapping_witness :
  init None = Returns empty_manager /\
  store_wf (students empty_manager) /\ recoverable empty_manager /\
  init (disk (run empty_manager reuse_run)) = Returns (run empty_manager reuse_run).
Proof.
  assert (Hwf : store_wf (students empty_manager)) by (split; constructor).
  assert (Hrec : recoverable empty_manager) by reflexivity.
  split; [reflexivity|]. split; [exact Hwf|]. split; [exact Hrec|].
  exact (proj2 (proj2 (restart_recovers_mapping empty_manager reuse_run Hwf Hrec))).
Defined.

(** ** The text of a generated identifier *)

Lemma zeros_length (n : nat) : String.length (PyStr.zeros n) = n.
Proof. induction n as [|n IH]; simpl; [reflexivity | now rewrite IH]. Qed.

Lemma str_of_N_short (n : Z) :
  0 <= n <= 999 -> (String.length (PyStr.str_of_N (Z.to_N n)) <= 3)%nat.
Proof.
  intros Hn.
  assert (Hall : forallb (fun i => (String.length (PyStr.str_of_N (N.of_nat i)) <=? 3)%nat)
                         (seq 0 1000) = true) by (vm_compute; reflexivity).
  rewrite forallb_forall in Hall.
  specialize (Hall (Z.to_nat n)). rewrite in_seq in Hall.
  apply Nat.leb_le.
  replace (Z.to_N n) with (N.of_nat (Z.to_nat n)) by lia.
  apply Hall. lia.
Qed.

Lemma format_03d_three (n : Z) :
  0 <= n <= 999 ->
  String.length (PyStr.format_03d n) = 3%nat /\
  PyStr.all_digits (PyStr.format_03d n) = true.
Proof.
  intros Hn. pose proof (str_of_N_short n Hn) as Hlen.
  destruct n as [|p|p]; try lia; unfold PyStr.format_03d;
    (split; [|apply DecimalLemmas.zfill_digits]);
    unfold PyStr.zfill; rewrite JsonLemmas.string_length_append, zeros_length; lia.
Qed.

(** X8: while every numeric suffix in the store lies between 0 and 998,
    the generated identifier is STU followed by exactly three digits;
    beyond that the identifiers get longer instead of colliding: two
    different numbers never give the same identifier text. *)
Theorem generated_id_text (s : store) (ids : list Z) :
  suffix_ids (dict_keys s) = Some ids ->
  (forall j, In j ids -> 0 <= j <= 998) ->
  (exists ds, generate_id s = Some ("STU" ++ ds) /\
              String.length ds = 3%nat /\ PyStr.all_digits ds = true) /\
  (forall n n', "STU" ++ PyStr.format_03d n = "STU" ++ PyStr.format_03d n' -> n = n').
Proof.
  intros Hids Hsmall. split.
  - rewrite generate_id_eq. destruct s as [|kr s].
    + exists (PyStr.format_03d 1). split; [reflexivity|]. apply format_03d_three. lia.
    + rewrite Hids. destruct ids as [|i rest].
      * exists (PyStr.format_03d 1). split; [reflexivity|]. apply format_03d_three. lia.
      * exists (PyStr.format_03d (py_max i rest + 1)). split; [reflexivity|].
        apply format_03d_three.
        pose proof (Hsmall _ (py_max_in rest i)). lia.
  - intros n n' H. pose proof (suffix_of_generated n) as Hn.
    rewrite H, suffix_of_generated in Hn. congruence.
Qed.

Lemma generated_id_text_witness :
  suffix_ids (dict_keys (students class_of_three)) = Some [1; 2; 3] /\
  exists ds, generate_id (students class_of_three) = Some ("STU" ++ ds) /\
             String.length ds = 3%nat.
Proof.
  split; [reflexivity|].
  destruct (generated_id_text (students class_of_three) [1; 2; 3] eq_refl)
    as [(ds & Hg & Hl & _) _].
  - intros j [<-|[<-|[<-|[]]]]; lia.
  - exists ds. split; assumption.
Defined.

(** ** The validators of the menu *)

Lemma py_int_str_of_Z (z : Z) : PyStr.py_int (PyStr.str_of_Z z) = Some z.
Proof.
  destruct z as [|p|p].
  - reflexivity.
  - cbn [PyStr.str_of_Z Z.to_N].
    apply (DecimalLemmas.py_int_digits false _ (Npos p)).
    + apply DecimalLemmas.all_digits_uint.
    + apply DecimalLemmas.str_of_N_nonempty.
    + apply DecimalLemmas.N_of_digits_str.
  - cbn [PyStr.str_of_Z].
    apply (DecimalLemmas.py_int_digits true _ (Npos p)).
    + apply DecimalLemmas.all_digits_uint.
    + apply DecimalLemmas.str_of_N_nonempty.
    + apply DecimalLemmas.N_of_digits_str.
Qed.

(** X9: validate_age returns only ages from 5 to 100, and always the
    number int reads from the text; of the decimal text of a number it
    accepts exactly those from 5 to 100. *)
Theorem validate_age_range :
  (forall s age, Cli.validate_age s = Some age ->
                 5 <= age <= 100 /\ PyStr.py_int s = Some age) /\
  (forall z, Cli.validate_age (PyStr.str_of_Z z) = Some z <-> 5 <= z <= 100) /\
  (forall z, ~ 5 <= z <= 100 -> Cli.validate_age (PyStr.str_of_Z z) = None).
Proof.
  unfold Cli.validate_age. split; [|split].
  - intros s age. destruct (PyStr.py_int s) as [a|]; [|discriminate].
    destruct (Z.leb_spec 5 a), (Z.leb_spec a 100); cbn [andb]; try discriminate.
    intros [= <-]. split; [lia | reflexivity].
  - intros z. rewrite py_int_str_of_Z.
    destruct (Z.leb_spec 5 z), (Z.leb_spec z 100); cbn [andb]; split;
      try discriminate; try lia; reflexivity.
  - intros z Hz. rewrite py_int_str_of_Z.
    destruct (Z.leb_spec 5 z), (Z.leb_spec z 100); cbn [andb]; try reflexivity; lia.
Qed.

Lemma validate_age_range_witness :
  Cli.validate_age " 42 " = Some 42 /\ 5 <= 42 <= 100 /\
  Cli.validate_age (PyStr.str_of_Z 101) = None.
Proof.
  split; [reflexivity|].
  split; [exact (proj1 (proj1 validate_age_range " 42 " 42 eq_refl))|].
  apply (proj2 (proj2 validate_age_range) 101). lia.
Defined.

(** X10: get_valid_input returns the value of the first line that, once
    stripped, passes the validation, having skipped only lines that fail
    it, and leaves the later lines unread; it runs out of input exactly
    when no line passes.  With validate_age the value is an age from 5 to
    100. *)
Theorem get_valid_input_first_valid {A : Type} (f : string -> option A)
  (lines : list string) :
  (forall value rest,
     Cli.get_valid_input f lines = Some (value, rest) ->
     exists skipped line,
       lines = (skipped ++ line :: rest)%list /\
       f (Cli.strip line) = Some value /\
       Forall (fun l => f (Cli.strip l) = None) skipped) /\
  (Cli.get_valid_input f lines = None <->
   Forall (fun l => f (Cli.strip l) = None) lines) /\
  (forall age rest,
     Cli.get_valid_input Cli.validate_age lines = Some (age, rest) -> 5 <= age <= 100).
Proof.
  assert (Hfirst : forall (B : Type) (g : string -> option B) ls value rest,
            Cli.get_valid_input g ls = Some (value, rest) ->
            exists skipped line,
              ls = (skipped ++ line :: rest)%list /\
              g (Cli.strip line) = Some value /\
              Forall (fun l => g (Cli.strip l) = None) skipped).
  { intros B g ls. induction ls as [|l ls IH]; intros value rest H; [discriminate|].
    cbn [Cli.get_valid_input] in H.
    destruct (g (Cli.strip l)) as [v|] eqn:E.
    - injection H as <- <-. exists [], l. repeat split; [exact E | constructor].
    - destruct (IH _ _ H) as (skipped & line & -> & Hv & Hs).
      exists (l :: skipped), line. repeat split; [exact Hv | now constructor]. }
  split; [apply Hfirst|]. split.
  - induction lines as [|l lines IH]; cbn [Cli.get_valid_input].
    + split; [constructor | reflexivity].
    + destruct (f (Cli.strip l)) as [v|] eqn:E.
      * split; [discriminate|]. intros H. inversion H; congruence.
      * rewrite IH. split; [now constructor | intros H; now inversion H].
  - intros age rest H. destruct (Hfirst _ _ _ _ _ H) as (_ & line & _ & Hv & _).
    exact (proj1 (proj1 validate_age_range _ _ Hv)).
Qed.

Lemma get_valid_input_first_valid_witness :
  Cli.get_valid_input Cli.validate_age age_lines = Some (42, ["7"]) /\
  exists skipped line,
    age_lines = (skipped ++ line :: ["7"])%list /\
    Cli.validate_age (Cli.strip line) = Some 42.
Proof.
  split; [reflexivity|].
  destruct (proj1 (get_valid_input_first_valid Cli.validate_age age_lines) 42 ["7"] eq_refl)
    as (skipped & line & E & Hv & _).
  exists skipped, line. split; assumption.
Defined.

Lemma codes_eqb_eq (a b : list N) : Cli.codes_eqb a b = true -> a = b.
Proof.
  revert b. induction a as [|x a IH]; intros [|y b]; cbn [Cli.codes_eqb];
    try discriminate; [reflexivity|].
  intros H. apply andb_prop in H as [Hx Ha].
  apply N.eqb_eq in Hx. subst. f_equal. now apply IH.
Qed.

Lemma upper_char_nonempty (c : ascii) : Cli.upper_char c <> [].
Proof.
  unfold Cli.upper_char.
  repeat match goal with |- context [if ?b then _ else _] => destruct b end;
    discriminate.
Qed.

Lemma upper_single (s : string) (n : N) :
  Cli.upper s = [n] -> exists c, s = String c "" /\ Cli.upper_char c = [n].
Proof.
  unfold Cli.upper. destruct s as [|c t]; [discriminate|].
  cbn [list_ascii_of_string flat_map]. intros H.
  pose proof (upper_char_nonempty c) as Hc.
  destruct (Cli.upper_char c) as [|x [|y l]] eqn:E; [now elim Hc| |discriminate].
  cbn [List.app] in H. injection H as -> Ht.
  destruct t as [|c' t']; [now exists c|].
  cbn [list_ascii_of_string flat_map] in Ht.
  pose proof (upper_char_nonempty c') as Hc'.
  destruct (Cli.upper_char c'); [now elim Hc' | discriminate].
Qed.

Lemma upper_char_letter (c : ascii) (n : N) :
  In n [65; 66; 67; 68; 70]%N -> Cli.upper_char c = [n] ->
  N_of_ascii c = n \/ N_of_ascii c = (n + 32)%N.
Proof.
  intros Hn H.
  destruct c as [[] [] [] [] [] [] [] []]; vm_compute in H;
    injection H as <-; vm_compute; auto;
    exfalso; vm_compute in Hn; intuition discriminate.
Qed.

(** X11: validate_grade accepts exactly the letters A, B, C, D and F in
    either case, nothing longer, shorter or accented, and returns the
    capital letter. *)
Theorem validate_grade_accepts (s g : string) :
  Cli.validate_grade s = Some g <-> In (s, g) accepted_grades.
Proof.
  split.
  - unfold Cli.validate_grade. intros H. apply find_some in H as [Hg Heq].
    apply codes_eqb_eq in Heq.
    assert (Hcases : exists n, In n [65; 66; 67; 68; 70]%N /\
                               Cli.code_points g = [n] /\ g = String (ascii_of_N n) "").
    { cbn in Hg. destruct Hg as [<-|[<-|[<-|[<-|[<-|[]]]]]];
        eexists; (split; [|split; reflexivity]); cbn; auto 6. }
    destruct Hcases as (n & Hn & Hcp & ->). rewrite Hcp in Heq.
    destruct (upper_single _ _ Heq) as (c & -> & Hc).
    destruct (upper_char_letter c n Hn Hc) as [E|E];
      apply (f_equal ascii_of_N) in E; rewrite ascii_N_embedding in E; subst c;
      cbn in Hn; destruct Hn as [<-|[<-|[<-|[<-|[<-|[]]]]]]; cbn; auto 12.
  - intros H. cbn in H.
    repeat (destruct H as [[= <- <-]|H]; [reflexivity|]). contradiction.
Qed.

Lemma validate_grade_accepts_witness :
  Cli.validate_grade "b" = Some "B" /\ ~ In ("E", "E") accepted_grades /\
  Cli.validate_grade "E" <> Some "E".
Proof.
  split; [exact (proj2 (validate_grade_accepts "b" "B") (or_intror (or_intror (or_intror (or_introl eq_refl)))))|].
  assert (Hno : ~ In ("E", "E") accepted_grades).
  { cbn. intuition discriminate. }
  split; [exact Hno|].
  intros H. apply Hno. exact (proj1 (validate_grade_accepts "E" "E") H).
Defined.

(** ** Backup and restore *)

Lemma class_of_three_wf : store_wf (students class_of_three).
Proof.
  split.
  - unfold dict_wf. cbn. repeat constructor; cbn; intuition discriminate.
  - repeat constructor; unfold dict_wf; cbn;
      repeat constructor; cbn; intuition discriminate.
Qed.

Lemma backup_name_listed (stamp : string) :
  PyStr.startswith (Cli.backup_name stamp) "student_records_backup" = true.
Proof.
  unfold Cli.backup_name, PyStr.startswith.
  change ("student_records_backup_" ++ stamp ++ ".json")
    with ("student_records_backup" ++ String "_" (stamp ++ ".json")).
  apply prefix_append.
Qed.

Lemma insert_desc_in (f x : string) (l : list string) :
  In x (Cli.insert_desc f l) <-> x = f \/ In x l.
Proof.
  induction l as [|g l IH]; cbn [Cli.insert_desc In].
  - intuition congruence.
  - destruct (String.leb g f); cbn [In]; [intuition congruence|].
    rewrite IH. intuition congruence.
Qed.

Lemma sorted_desc_in (x : string) (l : list string) :
  In x (Cli.sorted_desc l) <-> In x l.
Proof.
  unfold Cli.sorted_desc. induction l as [|f l IH]; cbn [fold_right In]; [tauto|].
  rewrite insert_desc_in, IH. intuition congruence.
Qed.

Lemma enumerate_in {A : Type} (x : A) (l : list A) :
  In x l -> forall start, exists n, In (n, x) (Cli.enumerate start l).
Proof.
  induction l as [|y l IH]; cbn [In Cli.enumerate]; [tauto|].
  intros [->|Hin] start.
  - exists start. now left.
  - destruct (IH Hin (start + 1)) as [n Hn]. exists n. now right.
Qed.

(** The number printed next to an entry is its place in the printed list. *)
Lemma enumerate_nth {A : Type} (x : A) (l : list A) :
  forall start n, In (n, x) (Cli.enumerate start l) ->
                  start <= n /\ nth_error l (Z.to_nat (n - start)) = Some x.
Proof.
  induction l as [|y l IH]; cbn [In Cli.enumerate]; [tauto|].
  intros start n [[= <- <-]|Hin].
  - split; [lia|]. now rewrite Z.sub_diag.
  - destruct (IH _ _ Hin) as [Hle Hnth]. split; [lia|].
    replace (Z.to_nat (n - start)) with (S (Z.to_nat (n - (start + 1)))) by lia.
    exact Hnth.
Qed.

(** The answer that is the place of a file in the directory listing
    restores that file. *)
Lemma restore_listed (m : manager) (cwd : dict string string) (answer f txt : string)
  (i : nat) (data : store) :
  nth_error (Cli.backup_files cwd) i = Some f ->
  PyStr.py_int answer = Some (Z.of_nat i + 1) ->
  dict_get String.eqb cwd f = Some txt ->
  Json.json_load txt = Json.Decoded data ->
  Cli.restore_records_ui m cwd answer =
  Returns {| students := data; disk := Some (Json.json_dump data) |}.
Proof.
  intros Hnth Hint Hf Hd.
  assert (Hlen : (i < List.length (Cli.backup_files cwd))%nat).
  { apply nth_error_Some. congruence. }
  unfold Cli.restore_records_ui. rewrite Hint.
  replace (Z.to_nat (Z.of_nat i + 1 - 1)) with i by lia.
  rewrite Hnth, Hf, Hd.
  destruct (Cli.backup_files cwd) as [|f0 fs]; [cbn in Hlen; lia|].
  destruct (Z.leb_spec 1 (Z.of_nat i + 1)); [|lia].
  destruct (Z.leb_spec (Z.of_nat i + 1) (Z.of_nat (List.length (f0 :: fs)))); [|lia].
  reflexivity.
Qed.

(** X12: the file that backup_records_ui writes is a backup file of the
    directory and has a line in the menu of restore_records_ui.  Answering
    the place the file has in the os.listdir order brings the mapping of
    the moment of the backup back, whatever the manager holds by then, and
    writes it to the backing file.  The menu numbers the files in
    descending name order: the number printed next to the file is that
    answer when os.listdir lists the backup files in descending order.  In
    the sample directory, which lists the older backup first, the new
    backup is printed as number 1 and the answer 1 restores the older
    backup. *)
Theorem backup_then_restore :
  (forall (m0 m : manager) (cwd cwd' : dict string string) (stamp : string),
     store_wf (students m0) ->
     Cli.backup_records_ui m0 cwd stamp cwd' ->
     (exists i, nth_error (Cli.backup_files cwd') i = Some (Cli.backup_name stamp)) /\
     (exists n, In (n, Cli.backup_name stamp) (Cli.restore_menu cwd')) /\
     (forall i answer,
        nth_error (Cli.backup_files cwd') i = Some (Cli.backup_name stamp) ->
        PyStr.py_int answer = Some (Z.of_nat i + 1) ->
        Cli.restore_records_ui m cwd' answer =
        Returns {| students := students m0;
                   disk := Some (Json.json_dump (students m0)) |}) /\
     (Cli.sorted_desc (Cli.backup_files cwd') = Cli.backup_files cwd' ->
      forall n, In (n, Cli.backup_name stamp) (Cli.restore_menu cwd') ->
                Cli.restore_records_ui m cwd' (PyStr.str_of_Z n) =
                Returns {| students := students m0;
                           disk := Some (Json.json_dump (students m0)) |})) /\
  (Cli.backup_records_ui class_of_three sample_cwd "20240301_120000" sample_cwd_after /\
   Cli.restore_menu sample_cwd_after =
     [ (1, Cli.backup_name "20240301_120000");
       (2, "student_records_backup_20240101_000000.json") ] /\
   Cli.restore_records_ui after_delete sample_cwd_after "1" =
     Returns {| students := []; disk := Some "{}" |}).
Proof.
  split.
  - intros m0 m cwd cwd' stamp Hwf [Hwf' Hcwd].
    assert (Hget : dict_get String.eqb cwd' (Cli.backup_name stamp) =
                   Some (Json.json_dump (students m0))).
    { now rewrite Hcwd, String.eqb_refl. }
    assert (Hin : In (Cli.backup_name stamp) (Cli.backup_files cwd')).
    { unfold Cli.backup_files. apply filter_In. split.
      - exact (dict_get_in String.eqb String.eqb_spec _ _ _ Hget).
      - apply backup_name_listed. }
    assert (Hrestore : forall i answer,
              nth_error (Cli.backup_files cwd') i = Some (Cli.backup_name stamp) ->
              PyStr.py_int answer = Some (Z.of_nat i + 1) ->
              Cli.restore_records_ui m cwd' answer =
              Returns {| students := students m0;
                         disk := Some (Json.json_dump (students m0)) |}).
    { intros i answer Hnth Hint.
      exact (restore_listed m cwd' answer _ _ i _ Hnth Hint Hget
               (JsonLemmas.json_load_dump _ Hwf)). }
    split; [now apply In_nth_error|].
    split.
    { apply enumerate_in. now apply sorted_desc_in. }
    split; [exact Hrestore|].
    intros Hsorted n Hn. unfold Cli.restore_menu in Hn. rewrite Hsorted in Hn.
    destruct (enumerate_nth _ _ _ _ Hn) as [Hle Hnth].
    apply (Hrestore _ _ Hnth). rewrite py_int_str_of_Z. apply f_equal. lia.
  - split; [|split; reflexivity].
    split.
    + unfold dict_wf. cbn. repeat constructor; cbn; intuition discriminate.
    + intros f. cbn [sample_cwd_after sample_cwd dict_get].
      rewrite (String.eqb_sym f).
      destruct (String.eqb_spec (Cli.backup_name "20240301_120000") f) as [<-|Hne];
        [reflexivity|].
      destruct (String.eqb "notes.txt" f); [reflexivity|].
      now destruct (String.eqb "student_records_backup_20240101_000000.json" f).
Qed.

Lemma backup_then_restore_witness :
  store_wf (students class_of_three) /\
  Cli.backup_records_ui class_of_three sample_cwd "20240301_120000" sample_cwd_after /\
  nth_error (Cli.backup_files sample_cwd_after) 1 =
    Some (Cli.backup_name "20240301_120000") /\
  PyStr.py_int "2" = Some (Z.of_nat 1 + 1) /\
  Cli.restore_records_ui after_delete sample_cwd_after "2" =
    Returns {| students := students class_of_three;
               disk := Some (Json.json_dump (students class_of_three)) |}.
Proof.
  assert (Hwf : store_wf (students class_of_three)) by exact class_of_three_wf.
  assert (Hcwd : Cli.backup_records_ui class_of_three sample_cwd "20240301_120000"
                   sample_cwd_after)
    by exact (proj1 (proj2 backup_then_restore)).
  split; [exact Hwf|]. split; [exact Hcwd|].
  split; [reflexivity|]. split; [reflexivity|].
  exact (proj1 (proj2 (proj2 (proj1 backup_then_restore class_of_three after_delete
                                sample_cwd sample_cwd_after "20240301_120000"
                                Hwf Hcwd)))
           1%nat "2" eq_refl eq_refl).
Defined.

(** X13: restore_records_ui reads only files of the directory whose name
    starts with the backup prefix.  Without such a file, and on an answer
    that is not an integer from 1 to the number of backup files, the
    manager stays as it is.  An answer in that range selects the file at
    that place of the os.listdir order: when its text decodes to a mapping
    of the persisted layout, that mapping replaces the one of the manager
    and its dump the backing file; when json.load raises on it, the
    manager stays as it is; when it decodes to any other value, that value
    is installed, which is outside this model. *)
Theorem restore_outcomes (m : manager) (cwd : dict string string) (answer : string) :
  (forall f, In f (Cli.backup_files cwd) <->
             In f (dict_keys cwd) /\ PyStr.startswith f "student_records_backup" = true) /\
  (Cli.backup_files cwd = [] -> Cli.restore_records_ui m cwd answer = Returns m) /\
  ((forall choice, PyStr.py_int answer = Some choice ->
      ~ 1 <= choice <= Z.of_nat (List.length (Cli.backup_files cwd))) ->
   Cli.restore_records_ui m cwd answer = Returns m) /\
  (forall choice f txt,
     PyStr.py_int answer = Some choice -> 1 <= choice ->
     nth_error (Cli.backup_files cwd) (Z.to_nat (choice - 1)) = Some f ->
     dict_get String.eqb cwd f = Some txt ->
     match Json.json_load txt with
     | Json.Decoded data =>
         Cli.restore_records_ui m cwd answer =
         Returns {| students := data; disk := Some (Json.json_dump data) |}
     | Json.DecodeError => Cli.restore_records_ui m cwd answer = Returns m
     | Json.Foreign => Cli.restore_records_ui m cwd answer = Outside
     end).
Proof.
  split; [|split; [|split]].
  - intros f. unfold Cli.backup_files. rewrite filter_In. tauto.
  - intros E. unfold Cli.restore_records_ui. now rewrite E.
  - intros Hbad. unfold Cli.restore_records_ui.
    destruct (Cli.backup_files cwd) as [|f0 fs]; [reflexivity|].
    destruct (PyStr.py_int answer) as [choice|]; [|reflexivity].
    specialize (Hbad choice eq_refl).
    destruct (Z.leb_spec 1 choice), (Z.leb_spec choice (Z.of_nat (List.length (f0 :: fs))));
      cbn [andb]; try reflexivity. lia.
  - intros choice f txt Hint Hpos Hnth Hf.
    assert (Hlen : (Z.to_nat (choice - 1) < List.length (Cli.backup_files cwd))%nat).
    { apply nth_error_Some. congruence. }
    unfold Cli.restore_records_ui. rewrite Hint, Hnth, Hf.
    destruct (Cli.backup_files cwd) as [|f0 fs]; [cbn in Hlen; lia|].
    destruct (Z.leb_spec 1 choice); [|lia].
    destruct (Z.leb_spec choice (Z.of_nat (List.length (f0 :: fs)))); [|lia].
    cbn [andb]. now destruct (Json.json_load txt).
Qed.

Lemma restore_outcomes_witness :
  (Cli.restore_records_ui class_of_three sample_cwd "1" =
     Returns {| students := []; disk := Some "{}" |}) /\
  (Json.json_load "[]" = Json.Foreign /\
   Cli.restore_records_ui class_of_three foreign_cwd "1" = Outside) /\
  (Json.json_load "{" = Json.DecodeError /\
   Cli.restore_records_ui class_of_three foreign_cwd "2" = Returns class_of_three) /\
  ((forall choice, PyStr.py_int "two" = Some choice ->
      ~ 1 <= choice <= Z.of_nat (List.length (Cli.backup_files sample_cwd))) /\
   Cli.restore_records_ui class_of_three sample_cwd "two" = Returns class_of_three).
Proof.
  assert (Hbad : forall choice, PyStr.py_int "two" = Some choice ->
            ~ 1 <= choice <= Z.of_nat (List.length (Cli.backup_files sample_cwd))).
  { intros choice H. discriminate H. }
  assert (H1 : 1 <= 1) by lia.
  assert (H2 : 1 <= 2) by lia.
  split; [|split; [|split]].
  - exact (proj2 (proj2 (proj2 (restore_outcomes class_of_three sample_cwd "1")))
             1 "student_records_backup_20240101_000000.json" "{}"
             eq_refl H1 eq_refl eq_refl).
  - split; [reflexivity|].
    exact (proj2 (proj2 (proj2 (restore_outcomes class_of_three foreign_cwd "1")))
             1 "student_records_backup_a.json" "[]" eq_refl H1 eq_refl eq_refl).
  - split; [reflexivity|].
    exact (proj2 (proj2 (proj2 (restore_outcomes class_of_three foreign_cwd "2")))
             2 "student_records_backup_b.json" "{" eq_refl H2 eq_refl eq_refl).
  - split; [exact Hbad|].
    exact (proj1 (proj2 (proj2 (restore_outcomes class_of_three sample_cwd "two"))) Hbad).
Defined.
